(** * BOSS ensemble (sktime/contrib/dictionary_based/boss_ensemble.py)

    A shallow embedding of [BOSSEnsemble] and [BOSSIndividual] together with
    the properties of the model-selection search and of the nearest-neighbour
    classifier.

    Conventions of the embedding:
    - Python [int] is [Z]; a position produced by [enumerate] or by
      [range(num_insts)] is a [nat];
    - Python [float] is an exact rational [Q]: the comparisons of the source
      are the comparisons of [Q], and every concrete run below uses values on
      which binary64 arithmetic gives the same result;
    - an exception is a value [Raise e] of the [result] type;
    - the SFA transform and [boss_distance] live outside this module: they
      are parameters of the definitions that call them. *)

From Stdlib Require Import ZArith QArith Qround List Bool Lia Lqa.
Import ListNotations.

Local Open Scope Z_scope.

(** ** Python values and exceptions *)

Inductive exn : Type :=
| ZeroDivisionError
| IndexError
| ValueError
| OutOfFuel. (* not a Python exception: a loop of the model ran out of steps *)

Inductive result (A : Type) : Type :=
| Ok (a : A)
| Raise (e : exn).

Arguments Ok {A} a.
Arguments Raise {A} e.

Definition bind {A B : Type} (m : result A) (k : A -> result B) : result B :=
  match m with
  | Ok a => k a
  | Raise e => Raise e
  end.

Notation "x <- m ;; k" := (bind m (fun x => k))
  (at level 61, m at next level, right associativity).
Notation "' pat <- m ;; k" := (bind m (fun x => match x with pat => k end))
  (at level 61, pat pattern, m at next level, right associativity).

(** [x < y], [x >= y] and [x > y] on floats. *)
Definition Qltb (x y : Q) : bool := negb (Qle_bool y x).
Definition Qgeb (x y : Q) : bool := Qle_bool y x.
Definition Qgtb (x y : Q) : bool := Qltb y x.

(** [sys.float_info.max], the largest finite binary64 value. *)
Definition float_max : Q := inject_Z ((2 ^ 53 - 1) * 2 ^ 971).

(** [int(x)] on a float truncates towards zero. *)
Definition py_int (x : Q) : Z := Z.quot (Qnum x) (Zpos (Qden x)).

(** [a / b], Python 3 true division. *)
Definition py_truediv (a b : Q) : result Q :=
  if Qeq_bool b 0 then Raise ZeroDivisionError else Ok (a / b)%Q.

(** [l[i]] for a Python integer [i]: a negative index counts from the end. *)
Definition py_index {A : Type} (l : list A) (i : Z) : result A :=
  let n := Z.of_nat (length l) in
  let j := if i <? 0 then i + n else i in
  if (0 <=? j) && (j <? n)
  then match nth_error l (Z.to_nat j) with
       | Some a => Ok a
       | None => Raise IndexError
       end
  else Raise IndexError.

(** [l[n]] for a position [n >= 0]. *)
Definition py_get {A : Type} (l : list A) (n : nat) : result A :=
  match nth_error l n with
  | Some a => Ok a
  | None => Raise IndexError
  end.

(** [del l[n]] for a position [n >= 0]. *)
Definition py_del {A : Type} (l : list A) (n : nat) : result (list A) :=
  if (n <? length l)%nat then Ok (firstn n l ++ skipn (S n) l)
  else Raise IndexError.

(** [range(start, stop, step)] for [step > 0]; the length is computed as
    CPython does. *)
Definition range_len (start stop step : Z) : nat :=
  if start <? stop then Z.to_nat ((stop - start - 1) / step + 1) else O.

Definition py_range (start stop step : Z) : list Z :=
  map (fun k => start + Z.of_nat k * step) (seq 0 (range_len start stop step)).

(** ** BOSSIndividual *)

(** The parameters an [SFA] object is built with; the object itself is an
    external collaborator. *)
Record SFA : Type := mkSFA {
  sfa_word_length : Z;
  sfa_alphabet_size : Z;
  sfa_window_size : Q;
  sfa_norm : bool
}.

(** One classifier object.  [oid] is the identity of the Python object: the
    class defines no [__eq__], so [==] on two classifiers, which
    [list.remove] uses, is identity. *)
Record BOSSIndividual (Bag : Type) : Type := mkBOSS {
  oid : nat * nat;
  window_size : Q;
  word_length : Z;
  alphabet_size : Z;
  norm : bool;
  transform : SFA;
  transformed_data : list Bag;
  class_vals : list Z;
  accuracy : Q
}.

Arguments mkBOSS {Bag}.
Arguments oid {Bag}.
Arguments window_size {Bag}.
Arguments word_length {Bag}.
Arguments alphabet_size {Bag}.
Arguments norm {Bag}.
Arguments transform {Bag}.
Arguments transformed_data {Bag}.
Arguments class_vals {Bag}.
Arguments accuracy {Bag}.

Definition same_object {Bag : Type} (a b : BOSSIndividual Bag) : bool :=
  (fst (oid a) =? fst (oid b))%nat && (snd (oid a) =? snd (oid b))%nat.

(** [l.remove(x)]: deletes the first element equal to [x]. *)
Fixpoint py_remove {Bag : Type} (x : BOSSIndividual Bag)
    (l : list (BOSSIndividual Bag)) : result (list (BOSSIndividual Bag)) :=
  match l with
  | [] => Raise ValueError
  | a :: l' =>
      if same_object a x then Ok l'
      else l'' <- py_remove x l' ;; Ok (a :: l'')
  end.

Section Individual.

Variable Bag : Type.

(** [boss_distance(first, second, best_dist)]. *)
Variable boss_distance : Bag -> Bag -> Q -> Q.

(** [SFA.fit_transform(X)] on the training set, as the list of bags
    [[series.to_dict() for series in sfa.iloc[:, 0]]], and
    [SFA.shorten_bags(word_len)] on the same object. *)
Variable sfa_fit_transform : SFA -> list Bag.
Variable sfa_shorten_bags : SFA -> Z -> list Bag.

(** [BOSSIndividual.__init__]. *)
Definition BOSSIndividual_init (id : nat * nat) (window_size : Q)
    (word_length alphabet_size : Z) (norm : bool) : BOSSIndividual Bag :=
  {| oid := id;
     window_size := window_size;
     word_length := word_length;
     alphabet_size := alphabet_size;
     norm := norm;
     transform := mkSFA word_length alphabet_size window_size norm;
     transformed_data := [];
     class_vals := [];
     accuracy := 0 |}.

(** [BOSSIndividual.fit]. *)
Definition BOSSIndividual_fit (self : BOSSIndividual Bag) (y : list Z)
    : BOSSIndividual Bag :=
  {| oid := oid self;
     window_size := window_size self;
     word_length := word_length self;
     alphabet_size := alphabet_size self;
     norm := norm self;
     transform := transform self;
     transformed_data := sfa_fit_transform (transform self);
     class_vals := y;
     accuracy := accuracy self |}.

(** The loop of [predict] over [enumerate(self.transformed_data)], from
    position [n] on. *)
Fixpoint predict_loop (class_vals : list Z) (test_bag : Bag) (n : nat)
    (bags : list Bag) (bestDist : Q) (nn : Z) : result Z :=
  match bags with
  | [] => Ok nn
  | bag :: rest =>
      let dist := boss_distance test_bag bag bestDist in
      if Qltb dist bestDist
      then c <- py_get class_vals n ;;
           predict_loop class_vals test_bag (S n) rest dist c
      else predict_loop class_vals test_bag (S n) rest bestDist nn
  end.

(** The body of [predict] for one encoded test series. *)
Definition predict_one (self : BOSSIndividual Bag) (test_bag : Bag)
    : result Z :=
  predict_loop (class_vals self) test_bag 0 (transformed_data self)
               float_max (-1).

(** [BOSSIndividual.predict], on the bags [self.transform.transform(X)]. *)
Fixpoint predict (self : BOSSIndividual Bag) (test_bags : list Bag)
    : result (list Z) :=
  match test_bags with
  | [] => Ok []
  | test_bag :: rest =>
      c <- predict_one self test_bag ;;
      cs <- predict self rest ;;
      Ok (c :: cs)
  end.

(** The loop of [train_predict]. *)
Fixpoint train_predict_loop (class_vals : list Z) (test_bag : Bag)
    (train_num n : nat) (bags : list Bag) (best_dist : Q) (nn : Z)
    : result Z :=
  match bags with
  | [] => Ok nn
  | bag :: rest =>
      if (n =? train_num)%nat
      then train_predict_loop class_vals test_bag train_num (S n) rest
                              best_dist nn
      else
        let dist := boss_distance test_bag bag best_dist in
        if Qltb dist best_dist
        then c <- py_get class_vals n ;;
             train_predict_loop class_vals test_bag train_num (S n) rest
                                dist c
        else train_predict_loop class_vals test_bag train_num (S n) rest
                                best_dist nn
  end.

(** [BOSSIndividual.train_predict]. *)
Definition train_predict (self : BOSSIndividual Bag) (train_num : nat)
    : result Z :=
  test_bag <- py_get (transformed_data self) train_num ;;
  train_predict_loop (class_vals self) test_bag train_num 0
                     (transformed_data self) float_max (-1).

(** [BOSSIndividual.shorten_bags]; [id] is the identity of the new
    object. *)
Definition shorten_bags (id : nat * nat) (self : BOSSIndividual Bag)
    (word_len : Z) : BOSSIndividual Bag :=
  {| oid := id;
     window_size := window_size self;
     word_length := word_len;
     alphabet_size := alphabet_size self;
     norm := norm self;
     transform := transform self;
     transformed_data := sfa_shorten_bags (transform self) word_len;
     class_vals := class_vals self;
     accuracy := 0 |}.

(** [BOSSIndividual.set_word_len]. *)
Definition set_word_len (self : BOSSIndividual Bag) (word_len : Z)
    : BOSSIndividual Bag :=
  {| oid := oid self;
     window_size := window_size self;
     word_length := word_len;
     alphabet_size := alphabet_size self;
     norm := norm self;
     transform := mkSFA word_len (sfa_alphabet_size (transform self))
                    (sfa_window_size (transform self))
                    (sfa_norm (transform self));
     transformed_data := transformed_data self;
     class_vals := class_vals self;
     accuracy := accuracy self |}.

(** The assignment [self.accuracy = acc]. *)
Definition set_accuracy (self : BOSSIndividual Bag) (acc : Q)
    : BOSSIndividual Bag :=
  {| oid := oid self;
     window_size := window_size self;
     word_length := word_length self;
     alphabet_size := alphabet_size self;
     norm := norm self;
     transform := transform self;
     transformed_data := transformed_data self;
     class_vals := class_vals self;
     accuracy := acc |}.

End Individual.

(** ** BOSSEnsemble *)

(** The arguments of [BOSSEnsemble.__init__] that [fit] reads. *)
Record BOSSEnsemble : Type := mkEnsemble {
  randomised_ensemble : bool;
  ensemble_size : Z;
  threshold : Q;
  max_ensemble_size : Z;
  word_lengths : list Z;
  ens_alphabet_size : Z;
  min_window : Z;
  norm_options : list bool
}.

(** The defaults of [__init__]. *)
Definition default_word_lengths : list Z := [16; 14; 12; 10; 8].
Definition default_norm_options : list bool := [true; false].

Definition default_ensemble : BOSSEnsemble :=
  {| randomised_ensemble := false;
     ensemble_size := 100;
     threshold := 92 # 100;
     max_ensemble_size := 250;
     word_lengths := default_word_lengths;
     ens_alphabet_size := 4;
     min_window := 10;
     norm_options := default_norm_options |}.

(** The defaults with [randomised_ensemble=True]. *)
Definition default_randomised : BOSSEnsemble :=
  {| randomised_ensemble := true;
     ensemble_size := 100;
     threshold := 92 # 100;
     max_ensemble_size := 250;
     word_lengths := default_word_lengths;
     ens_alphabet_size := 4;
     min_window := 10;
     norm_options := default_norm_options |}.

(** What [fit] leaves on the object. *)
Record Fitted (Bag : Type) : Type := mkFitted {
  classifiers : list (BOSSIndividual Bag);
  num_classes : nat;
  num_classifiers : nat;
  fitted_series_length : Z
}.

Arguments mkFitted {Bag}.
Arguments classifiers {Bag}.
Arguments num_classes {Bag}.
Arguments num_classifiers {Bag}.
Arguments fitted_series_length {Bag}.

(** The local variables of the grid search that survive a grid cell;
    [next_cell] numbers the cells and gives the objects their identity. *)
Record search_state (Bag : Type) : Type := mkState {
  st_classifiers : list (BOSSIndividual Bag);
  max_acc : Q;
  min_max_acc : Q;
  next_cell : nat
}.

Arguments mkState {Bag}.
Arguments st_classifiers {Bag}.
Arguments max_acc {Bag}.
Arguments min_max_acc {Bag}.
Arguments next_cell {Bag}.

(** What the three calls to [random] return in one iteration of the
    randomised loop, before [randint] maps the first two into its range. *)
Record draw : Type := mkDraw {
  draw_word : Z;
  draw_window : Z;
  draw_norm : Q
}.

(** [random.randint(a, b)] for integers [a], [b]: [ValueError] on an empty
    range, else a value in [a..b]. *)
Definition randint (raw a b : Z) : result Z :=
  if b <? a then Raise ValueError else Ok (a + raw mod (b - a + 1)).

(** [random.randint(a, b)] for a float [b], as [randrange] of Python 3.6 to
    3.9 treats it: an integral float is accepted as the integer it equals,
    any other float is a [ValueError]. *)
Definition randint_float (raw a : Z) (b : Q) : result Z :=
  if Qeq_bool b (inject_Z (Qfloor b)) then randint raw a (Qfloor b)
  else Raise ValueError.

(** [max_window_searches = self.series_length / 4]. *)
Definition max_window_searches (series_length : Z) : Q :=
  (inject_Z series_length / 4)%Q.

(** Lines 139-142 of [fit]: the window-length increment. *)
Definition window_increment (series_length min_window : Z) : result Z :=
  q <- py_truediv (inject_Z (series_length - min_window))
                  (max_window_searches series_length) ;;
  let win_inc := py_int q in
  Ok (if win_inc <? 1 then 1 else win_inc).

(** [range(self.min_window, self.series_length + 1, win_inc)]. *)
Definition window_sizes (series_length min_window win_inc : Z) : list Z :=
  py_range min_window (series_length + 1) win_inc.

Section Ensemble.

Variable Bag : Type.
Variable boss_distance : Bag -> Bag -> Q -> Q.
Variable sfa_fit_transform : SFA -> list Bag.
Variable sfa_shorten_bags : SFA -> Z -> list Bag.

(** The random generator, as the values drawn in each iteration. *)
Variable random_draws : nat -> draw.

Variable self : BOSSEnsemble.

(** [include_in_ensemble]. *)
Definition include_in_ensemble (acc max_acc min_max_acc : Q) (size : Z)
    : bool :=
  if Qgeb acc (max_acc * threshold self)%Q
  then if size >=? max_ensemble_size self
       then Qgtb acc min_max_acc
       else true
  else false.

(** The loop of [worst_of_best] over [enumerate(self.classifiers)]. *)
Fixpoint worst_of_best_loop (c : nat) (cls : list (BOSSIndividual Bag))
    (min_acc : Q) (min_acc_idx : nat) : Q * nat :=
  match cls with
  | [] => (min_acc, min_acc_idx)
  | classifier :: rest =>
      if Qltb (accuracy classifier) min_acc
      then worst_of_best_loop (S c) rest (accuracy classifier) c
      else worst_of_best_loop (S c) rest min_acc min_acc_idx
  end.

(** [worst_of_best]. *)
Definition worst_of_best (cls : list (BOSSIndividual Bag)) : Q * nat :=
  worst_of_best_loop 0 cls (-1) 0.

(** Lines 196-198 of [fit]: the list iterator is at position [c] of the
    list it walks, and the body removes from that same list. *)
Fixpoint evict_loop (fuel : nat) (max_acc : Q) (c : nat)
    (cls : list (BOSSIndividual Bag)) : result (list (BOSSIndividual Bag)) :=
  match nth_error cls c with
  | None => Ok cls
  | Some classifier =>
      match fuel with
      | O => Raise OutOfFuel
      | S fuel' =>
          if Qltb (accuracy classifier) (max_acc * threshold self)%Q
          then cls' <- py_remove classifier cls ;;
               evict_loop fuel' max_acc (S c) cls'
          else evict_loop fuel' max_acc (S c) cls
      end
  end.

(** Lines 176-179: the leave-one-out count over [range(num_insts)]. *)
Fixpoint count_correct (boss : BOSSIndividual Bag) (y : list Z) (gs : list nat)
    (correct : Z) : result Z :=
  match gs with
  | [] => Ok correct
  | g :: gs' =>
      c <- train_predict Bag boss_distance boss g ;;
      yg <- py_get y g ;;
      count_correct boss y gs' (if c =? yg then correct + 1 else correct)
  end.

(** Lines 175-181: the leave-one-out accuracy of one classifier. *)
Definition loo_accuracy (boss : BOSSIndividual Bag) (y : list Z) (num_insts : Z)
    : result Q :=
  correct <- count_correct boss y (seq 0 (Z.to_nat num_insts)) 0 ;;
  py_truediv (inject_Z correct) (inject_Z num_insts).

(** Lines 171-185: the loop over [enumerate(self.word_lengths)]. *)
Fixpoint word_length_loop (cell : nat) (y : list Z) (num_insts : Z)
    (n : nat) (wls : list Z)
    (boss best_classifier_for_win_size : BOSSIndividual Bag)
    (best_acc_for_win_size : Q) (best_word_len : Z)
    : result (BOSSIndividual Bag * Q * Z) :=
  match wls with
  | [] => Ok (best_classifier_for_win_size, best_acc_for_win_size,
              best_word_len)
  | word_len :: rest =>
      let boss := if (0 <? n)%nat
                  then shorten_bags Bag sfa_shorten_bags (cell, n) boss
                                    word_len
                  else boss in
      accuracy <- loo_accuracy boss y num_insts ;;
      if Qgeb accuracy best_acc_for_win_size
      then word_length_loop cell y num_insts (S n) rest boss boss accuracy
                            word_len
      else word_length_loop cell y num_insts (S n) rest boss
                            best_classifier_for_win_size
                            best_acc_for_win_size best_word_len
  end.

(** Lines 164-185: the winner of one (normalise, win_size) cell. *)
Definition best_for_win_size (cell : nat) (y : list Z) (num_insts : Z)
    (normalise : bool) (win_size : Z)
    : result (BOSSIndividual Bag * Q * Z) :=
  word_length0 <- py_index (word_lengths self) 0 ;;
  let boss :=
    BOSSIndividual_fit Bag sfa_fit_transform
      (BOSSIndividual_init Bag (cell, O) (inject_Z win_size) word_length0
                           (ens_alphabet_size self) normalise) y in
  word_length_loop cell y num_insts 0 (word_lengths self) boss boss (-1)
                   word_length0.

(** Lines 187-204: the retention decision for the winner of a cell.
    [clean] only touches the SFA object and changes nothing here. *)
Definition retain (st : search_state Bag)
    (best_classifier_for_win_size : BOSSIndividual Bag)
    (best_acc_for_win_size : Q) (best_word_len : Z)
    : result (search_state Bag) :=
  if include_in_ensemble best_acc_for_win_size (max_acc st) (min_max_acc st)
                         (Z.of_nat (length (st_classifiers st)))
  then
    let best :=
      set_accuracy Bag
        (set_word_len Bag best_classifier_for_win_size best_word_len)
        best_acc_for_win_size in
    let cls := st_classifiers st ++ [best] in
    '(max_acc1, cls1) <-
      (if Qgtb best_acc_for_win_size (max_acc st)
       then cls' <- evict_loop (length cls) best_acc_for_win_size 0 cls ;;
            Ok (best_acc_for_win_size, cls')
       else Ok (max_acc st, cls)) ;;
    let '(min_max_acc1, min_acc_ind) := worst_of_best cls1 in
    if Z.of_nat (length cls1) >? max_ensemble_size self
    then cls2 <- py_del cls1 min_acc_ind ;;
         let '(min_max_acc2, _) := worst_of_best cls2 in
         Ok (mkState cls2 max_acc1 min_max_acc2 (next_cell st))
    else Ok (mkState cls1 max_acc1 min_max_acc1 (next_cell st))
  else Ok st.

(** The body of the loop over [win_size]. *)
Definition grid_cell (y : list Z) (num_insts : Z) (normalise : bool)
    (st : search_state Bag) (win_size : Z) : result (search_state Bag) :=
  '(best, best_acc, best_word_len) <-
     best_for_win_size (next_cell st) y num_insts normalise win_size ;;
  st' <- retain st best best_acc best_word_len ;;
  Ok (mkState (st_classifiers st') (max_acc st') (min_max_acc st')
              (S (next_cell st'))).

(** Line 163: the loop over the window sizes. *)
Fixpoint window_loop (y : list Z) (num_insts : Z) (normalise : bool)
    (wins : list Z) (st : search_state Bag) : result (search_state Bag) :=
  match wins with
  | [] => Ok st
  | win_size :: rest =>
      st' <- grid_cell y num_insts normalise st win_size ;;
      window_loop y num_insts normalise rest st'
  end.

(** Line 162: the loop over [self.norm_options]. *)
Fixpoint norm_loop (y : list Z) (num_insts : Z) (wins : list Z)
    (norms : list bool) (st : search_state Bag)
    : result (search_state Bag) :=
  match norms with
  | [] => Ok st
  | normalise :: rest =>
      st' <- window_loop y num_insts normalise wins st ;;
      norm_loop y num_insts wins rest st'
  end.

(** Lines 147-157: the randomised loop; [k] counts the iterations. *)
Fixpoint randomised_loop (fuel : nat) (y : list Z)
    (series_length win_inc : Z) (k : nat) (cls : list (BOSSIndividual Bag))
    : result (list (BOSSIndividual Bag)) :=
  if Z.of_nat (length cls) <? ensemble_size self
  then
    match fuel with
    | O => Raise OutOfFuel
    | S fuel' =>
        let r := random_draws k in
        i <- randint (draw_word r) 0
                     (Z.of_nat (length (word_lengths self)) - 1) ;;
        word_len <- py_index (word_lengths self) i ;;
        j <- randint_float (draw_window r) 0
                           (max_window_searches series_length) ;;
        let win_size := inject_Z (min_window self + win_inc * j) in
        let win_size :=
          if Qgtb win_size (max_window_searches series_length)
          then max_window_searches series_length
          else win_size in
        let normalise := Qgtb (draw_norm r) (1 # 2) in
        word_length <- py_index (word_lengths self) word_len ;;
        let boss :=
          BOSSIndividual_fit Bag sfa_fit_transform
            (BOSSIndividual_init Bag (k, O) win_size word_length
                                 (ens_alphabet_size self) normalise) y in
        randomised_loop fuel' y series_length win_inc (S k) (cls ++ [boss])
    end
  else Ok cls.

(** [BOSSEnsemble.fit] on a fresh object, for a training set [X] of shape
    [(num_insts, series_length)] with labels [y]. *)
Definition fit (num_insts series_length : Z) (y : list Z)
    : result (Fitted Bag) :=
  let num_classes := length (nodup Z.eq_dec y) in
  win_inc <- window_increment series_length (min_window self) ;;
  cls <-
    (if randomised_ensemble self
     then randomised_loop (Z.to_nat (ensemble_size self)) y series_length
                          win_inc 0 []
     else
       st <- norm_loop y num_insts
               (window_sizes series_length (min_window self) win_inc)
               (norm_options self) (mkState [] (-1) (-1) 0) ;;
       Ok (st_classifiers st)) ;;
  Ok (mkFitted cls num_classes (length cls) series_length).

End Ensemble.

(** ** The properties, as the specification words them *)

Definition Qmaxb (a b : Q) : Q := if Qle_bool a b then b else a.
Definition Qminb (a b : Q) : Q := if Qle_bool a b then a else b.

(** The best and the lowest cached accuracy among the retained members,
    [-1] when none is retained. *)
Definition best_retained_accuracy {Bag : Type} (cls : list (BOSSIndividual Bag))
    : Q :=
  match cls with
  | [] => -1
  | c :: rest => fold_left Qmaxb (map accuracy rest) (accuracy c)
  end.

Definition lowest_retained_accuracy {Bag : Type}
    (cls : list (BOSSIndividual Bag)) : Q :=
  match cls with
  | [] => -1
  | c :: rest => fold_left Qminb (map accuracy rest) (accuracy c)
  end.

(** The position of the lowest cached accuracy, the earliest one on a tie. *)
Fixpoint lowest_accuracy_index_from {Bag : Type} (c : nat)
    (cls : list (BOSSIndividual Bag)) (low : Q) (low_idx : nat) : nat :=
  match cls with
  | [] => low_idx
  | m :: rest =>
      if Qltb (accuracy m) low
      then lowest_accuracy_index_from (S c) rest (accuracy m) c
      else lowest_accuracy_index_from (S c) rest low low_idx
  end.

Definition lowest_accuracy_index {Bag : Type} (cls : list (BOSSIndividual Bag))
    : nat :=
  match cls with
  | [] => O
  | m :: rest => lowest_accuracy_index_from 1 rest (accuracy m) 0
  end.

(** Every retained member is within [threshold] of the best retained one. *)
Definition retention_invariant {Bag : Type} (self : BOSSEnsemble)
    (cls : list (BOSSIndividual Bag)) : Prop :=
  Forall (fun m =>
            (best_retained_accuracy cls * threshold self <= accuracy m)%Q)
         cls.

(** The retention rule of a grid cell, on the retained members themselves. *)
Definition retention_rule {Bag : Type} (self : BOSSEnsemble)
    (cls : list (BOSSIndividual Bag)) (candidate_accuracy : Q) : bool :=
  Qgeb candidate_accuracy (best_retained_accuracy cls * threshold self)%Q
  && ((Z.of_nat (length cls) <? max_ensemble_size self)
      || Qgtb candidate_accuracy (lowest_retained_accuracy cls)).


(** No cached accuracy is negative. *)
Definition nonneg {Bag : Type} (cls : list (BOSSIndividual Bag)) : Prop :=
  Forall (fun m => (0 <= accuracy m)%Q) cls.


(** A classifier fitted on the training set with labels [y]: one stored bag
    per label. *)
Definition fitted_on {Bag : Type} (y : list Z) (boss : BOSSIndividual Bag)
    : Prop :=
  class_vals boss = y /\ length (transformed_data boss) = length y.

(** [l] is the label of a training instance other than [train_num]. *)
Definition other_label (class_vals : list Z) (train_num : nat) (l : Z) : Prop :=
  exists n, n <> train_num /\ nth_error class_vals n = Some l.


(** ** A small stand-in for the external collaborators

    Used to run [fit] and [predict] on concrete data.  A bag is abstracted to
    one integer feature; the distance is the squared difference and, like
    [boss_distance], gives up with [sys.float_info.max] once the cutoff is
    exceeded; the transform reads the bags of a window length from a table
    when normalising, and gives [otherwise] in every other case. *)
Module Fixture.

Definition sq_distance (a b : Z) : Q := inject_Z ((a - b) * (a - b)).

Definition distance (a b : Z) (best_dist : Q) : Q :=
  if Qgtb (sq_distance a b) best_dist then float_max else sq_distance a b.

Fixpoint lookup (table : list (Z * list Z)) (w : Z) (otherwise : list Z)
    : list Z :=
  match table with
  | [] => otherwise
  | (k, v) :: t => if k =? w then v else lookup t w otherwise
  end.

Definition fit_transform (table : list (Z * list Z)) (otherwise : list Z)
    (sfa : SFA) : list Z :=
  if sfa_norm sfa
  then lookup table (Qfloor (sfa_window_size sfa)) otherwise
  else otherwise.

Definition shorten (table : list (Z * list Z)) (otherwise : list Z)
    (sfa : SFA) (word_len : Z) : list Z :=
  fit_transform table otherwise sfa.

(** Four training series in two classes. *)
Definition y : list Z := [0; 0; 1; 1].

(** Bags on which the leave-one-out accuracy is 4/4, 3/4, 2/4 and 0/4. *)
Definition bags_all : list Z := [0; 1; 10; 11].
Definition bags_three : list Z := [0; 1; 10; 2].
Definition bags_half : list Z := [0; 1; 50; -50].
Definition bags_none : list Z := [0; 10; 1; 11].

(** The bags of the first window lengths, 10, 13 and 16, when
    normalising; every other cell gets [bags_none]. *)
Definition table_half_half_all : list (Z * list Z) :=
  [(10, bags_half); (13, bags_half); (16, bags_all)].
Definition table_half_half : list (Z * list Z) :=
  [(10, bags_half); (13, bags_half)].
Definition table_all_three : list (Z * list Z) :=
  [(10, bags_all); (13, bags_three)].

Definition draws (k : nat) : draw := mkDraw (Z.of_nat k) 0 0.

(** [fit] on a training set of shape (4, 40). *)
Definition run (self : BOSSEnsemble) (table : list (Z * list Z))
    (labels : list Z) : result (Fitted Z) :=
  fit Z distance (fit_transform table bags_none) (shorten table bags_none)
      draws self 4 40 labels.

Definition with_cap (cap : Z) (thr : Q) : BOSSEnsemble :=
  {| randomised_ensemble := false;
     ensemble_size := 100;
     threshold := thr;
     max_ensemble_size := cap;
     word_lengths := default_word_lengths;
     ens_alphabet_size := 4;
     min_window := 10;
     norm_options := default_norm_options |}.

Definition randomised (size cap : Z) (wls : list Z) : BOSSEnsemble :=
  {| randomised_ensemble := true;
     ensemble_size := size;
     threshold := 92 # 100;
     max_ensemble_size := cap;
     word_lengths := wls;
     ens_alphabet_size := 4;
     min_window := 10;
     norm_options := default_norm_options |}.

(** A classifier whose accuracy has been cached. *)
Definition member (cell : nat) (bags : list Z) (acc : Q) : BOSSIndividual Z :=
  {| oid := (cell, 4%nat);
     window_size := 10;
     word_length := 8;
     alphabet_size := 4;
     norm := true;
     transform := mkSFA 8 4 10 true;
     transformed_data := bags;
     class_vals := y;
     accuracy := acc |}.

End Fixture.

(** ** Definitions used to state further properties *)



(** What a scan that removes while iterating leaves: a member below the
    bound is dropped and the member after it is kept unexamined. *)
Fixpoint evict_skipping {Bag : Type} (bound : Q)
    (cls : list (BOSSIndividual Bag)) : list (BOSSIndividual Bag) :=
  match cls with
  | [] => []
  | c :: rest =>
      if Qltb (accuracy c) bound
      then match rest with
           | [] => []
           | d :: rest' => d :: evict_skipping bound rest'
           end
      else c :: evict_skipping bound rest
  end.


(** The bags a grid cell evaluates at position [n] of the word lengths: the
    fitted bags at position 0, the shortened bags afterwards. *)
Definition cell_bags {Bag : Type} (sfa_fit_transform : SFA -> list Bag)
    (sfa_shorten_bags : SFA -> Z -> list Bag) (sfa : SFA) (n : nat)
    (word_len : Z) : list Bag :=
  match n with
  | O => sfa_fit_transform sfa
  | S _ => sfa_shorten_bags sfa word_len
  end.

(** A classifier holding the bags [bags] and the labels [y]. *)
Definition with_bags {Bag : Type} (sfa : SFA) (bags : list Bag) (y : list Z)
    : BOSSIndividual Bag :=
  {| oid := (O, O);
     window_size := sfa_window_size sfa;
     word_length := sfa_word_length sfa;
     alphabet_size := sfa_alphabet_size sfa;
     norm := sfa_norm sfa;
     transform := sfa;
     transformed_data := bags;
     class_vals := y;
     accuracy := 0 |}.













(** The leave-one-out accuracy a grid cell gets at position [n] of the word
    lengths, [sfa] being the transform object of the cell. *)
Definition position_accuracy {Bag : Type}
    (boss_distance : Bag -> Bag -> Q -> Q)
    (sfa_fit_transform : SFA -> list Bag)
    (sfa_shorten_bags : SFA -> Z -> list Bag)
    (sfa : SFA) (y : list Z) (num_insts : Z) (n : nat) (word_len : Z)
    : result Q :=
  loo_accuracy Bag boss_distance
    (with_bags sfa (cell_bags sfa_fit_transform sfa_shorten_bags sfa n
                              word_len) y)
    y num_insts.

(** [best] with accuracy [acc] and word length [wl] is the classifier of
    position [n] among the word lengths [wls]; no position scores higher and
    no later position scores as high. *)
Definition selected {Bag : Type}
    (boss_distance : Bag -> Bag -> Q -> Q)
    (sfa_fit_transform : SFA -> list Bag)
    (sfa_shorten_bags : SFA -> Z -> list Bag)
    (sfa : SFA) (y : list Z) (num_insts : Z) (wls : list Z) (n : nat)
    (best : BOSSIndividual Bag) (acc : Q) (wl : Z) : Prop :=
  nth_error wls n = Some wl /\
  word_length best = wl /\
  transformed_data best
  = cell_bags sfa_fit_transform sfa_shorten_bags sfa n wl /\
  position_accuracy boss_distance sfa_fit_transform sfa_shorten_bags sfa y
                    num_insts n wl = Ok acc /\
  (forall m wl' a,
      nth_error wls m = Some wl' ->
      position_accuracy boss_distance sfa_fit_transform sfa_shorten_bags sfa
                        y num_insts m wl' = Ok a ->
      (a <= acc)%Q) /\
  (forall m wl' a,
      (n < m)%nat ->
      nth_error wls m = Some wl' ->
      position_accuracy boss_distance sfa_fit_transform sfa_shorten_bags sfa
                        y num_insts m wl' = Ok a ->
      (a < acc)%Q).




(** ** The class labels of [fit] and the prediction side of [BOSSEnsemble] *)

(** [np.unique]: the distinct values in increasing order. *)
Fixpoint insert_sorted (x : Z) (l : list Z) : list Z :=
  match l with
  | [] => [x]
  | a :: rest =>
      if x <? a then x :: l
      else if x =? a then l
      else a :: insert_sorted x rest
  end.

Definition np_unique (y : list Z) : list Z := fold_right insert_sorted [] y.

(** A Python [dict] from class values to positions. *)
Definition dict : Type := list (Z * nat).

(** [d.get(k)]. *)
Fixpoint dict_get (d : dict) (k : Z) : option nat :=
  match d with
  | [] => None
  | (k', v) :: rest => if k' =? k then Some v else dict_get rest k
  end.

(** [d[k] = v]. *)
Fixpoint dict_set (d : dict) (k : Z) (v : nat) : dict :=
  match d with
  | [] => [(k, v)]
  | (k', v') :: rest =>
      if k' =? k then (k, v) :: rest else (k', v') :: dict_set rest k v
  end.

(** [d.get(k, default)]. *)
Definition dict_get_default (d : dict) (k : Z) (default : Z) : Z :=
  match dict_get d k with
  | Some v => Z.of_nat v
  | None => default
  end.

(** Lines 134-135 of [fit]: the loop over [enumerate(self.classes_)]. *)
Fixpoint class_dictionary_loop (index : nat) (classes : list Z) (d : dict)
    : dict :=
  match classes with
  | [] => d
  | classVal :: rest =>
      class_dictionary_loop (S index) rest (dict_set d classVal index)
  end.

(** The object after [fit]: what the search left, with [classes_] and
    [class_dictionary]. *)
Record FittedEnsemble (Bag : Type) : Type := mkFittedEnsemble {
  fitted : Fitted Bag;
  classes_ : list Z;
  class_dictionary : dict
}.

Arguments mkFittedEnsemble {Bag}.
Arguments fitted {Bag}.
Arguments classes_ {Bag}.
Arguments class_dictionary {Bag}.

(** A value of a numpy float array after a division: a number, [inf] or
    [nan]. *)
Inductive npfloat : Type :=
| NaN
| PosInf
| Fin (q : Q).

(** [a / n] in numpy for a count [a] and a count [n]: no exception on a
    zero divisor. *)
Definition np_div (a n : nat) : npfloat :=
  match n with
  | O => match a with O => NaN | S _ => PosInf end
  | S _ => Fin (inject_Z (Z.of_nat a) / inject_Z (Z.of_nat n))
  end.

Definition np_isnan (x : npfloat) : bool :=
  match x with NaN => true | _ => false end.

(** [x <= y] on floats: false as soon as one side is [nan]. *)
Definition np_le (x y : npfloat) : bool :=
  match x, y with
  | NaN, _ => false
  | _, NaN => false
  | _, PosInf => true
  | PosInf, Fin _ => false
  | Fin a, Fin b => Qle_bool a b
  end.

(** The scan of [np.argmax]: [mp] is the running maximum, at position
    [idx]; a [nan] ends the scan. *)
Fixpoint argmax_loop (i : nat) (row : list npfloat) (mp : npfloat)
    (idx : nat) : nat :=
  match row with
  | [] => idx
  | x :: rest =>
      if np_isnan mp then idx
      else if np_le x mp then argmax_loop (S i) rest mp idx
      else argmax_loop (S i) rest x i
  end.

(** [np.argmax] on a one-dimensional array. *)
Definition np_argmax (row : list npfloat) : result nat :=
  match row with
  | [] => Raise ValueError
  | x :: rest => Ok (argmax_loop 1 rest x 0)
  end.

(** [row[k] += 1] for a position [k >= 0]. *)
Fixpoint add_at (row : list nat) (k : nat) : result (list nat) :=
  match row with
  | [] => Raise IndexError
  | c :: rest =>
      match k with
      | O => Ok (S c :: rest)
      | S k' => rest' <- add_at rest k' ;; Ok (c :: rest')
      end
  end.

(** [sums[k] += 1] for a Python integer [k] on a one-dimensional array. *)
Definition add_at_index (row : list nat) (k : Z) : result (list nat) :=
  let n := Z.of_nat (length row) in
  let j := if k <? 0 then k + n else k in
  if (0 <=? j) && (j <? n) then add_at row (Z.to_nat j)
  else Raise IndexError.

(** [sums[i, key] += 1] on row [i] of a two-dimensional array: [None] as an
    index is [np.newaxis], and the whole row is incremented. *)
Definition add_at_key (row : list nat) (key : option nat)
    : result (list nat) :=
  match key with
  | Some k => add_at row k
  | None => Ok (map S row)
  end.

(** The sum of a row of numbers. *)
Definition Qsum (qs : list Q) : Q := fold_right Qplus 0%Q qs.

Section EnsemblePrediction.

Variable Bag : Type.
Variable Series : Type.
Variable boss_distance : Bag -> Bag -> Q -> Q.

(** [SFA.transform] on one series. *)
Variable sfa_transform : SFA -> Series -> Bag.

(** Lines 223-224 of [predict_proba]: the loop over [range(X.shape[0])]. *)
Fixpoint vote_rows (d : dict) (sums : list (list nat)) (preds : list Z)
    : result (list (list nat)) :=
  match sums with
  | [] => Ok []
  | row :: rest =>
      match preds with
      | [] => Raise IndexError
      | p :: ps =>
          row' <- add_at_key row (dict_get d p) ;;
          rest' <- vote_rows d rest ps ;;
          Ok (row' :: rest')
      end
  end.

(** Lines 221-224: the loop over [self.classifiers]. *)
Fixpoint predict_proba_loop (d : dict) (X : list Series)
    (cls : list (BOSSIndividual Bag)) (sums : list (list nat))
    : result (list (list nat)) :=
  match cls with
  | [] => Ok sums
  | clf :: rest =>
      preds <- predict Bag boss_distance clf
                 (map (sfa_transform (transform clf)) X) ;;
      sums' <- vote_rows d sums preds ;;
      predict_proba_loop d X rest sums'
  end.

(** [BOSSEnsemble.predict_proba]. *)
Definition predict_proba (self : FittedEnsemble Bag) (X : list Series)
    : result (list (list npfloat)) :=
  sums <- predict_proba_loop (class_dictionary self) X
            (classifiers (fitted self))
            (repeat (repeat O (num_classes (fitted self))) (length X)) ;;
  Ok (map (map (fun c => np_div c (num_classifiers (fitted self)))) sums).

(** The list comprehension of [BOSSEnsemble.predict]. *)
Fixpoint predict_classes (classes : list Z) (probs : list (list npfloat))
    : result (list Z) :=
  match probs with
  | [] => Ok []
  | prob :: rest =>
      k <- np_argmax prob ;;
      c <- py_get classes k ;;
      cs <- predict_classes classes rest ;;
      Ok (c :: cs)
  end.

(** [BOSSEnsemble.predict]. *)
Definition ensemble_predict (self : FittedEnsemble Bag) (X : list Series)
    : result (list Z) :=
  probs <- predict_proba self X ;;
  predict_classes (classes_ self) probs.

(** Lines 256-257 of [get_train_probs]: the votes for training instance
    [i]. *)
Fixpoint train_votes (d : dict) (cls : list (BOSSIndividual Bag)) (i : nat)
    (sums : list nat) : result (list nat) :=
  match cls with
  | [] => Ok sums
  | clf :: rest =>
      c <- train_predict Bag boss_distance clf i ;;
      sums' <- add_at_index sums (dict_get_default d c (-1)) ;;
      train_votes d rest i sums'
  end.

(** The distribution of training instance [i]: lines 254-259. *)
Definition train_dists (self : FittedEnsemble Bag) (i : nat)
    : result (list npfloat) :=
  sums <- train_votes (class_dictionary self) (classifiers (fitted self)) i
            (repeat O (num_classes (fitted self))) ;;
  Ok (map (fun c => np_div c (num_classifiers (fitted self))) sums).

(** The loop of [get_train_probs] over [range(num_inst)]. *)
Fixpoint get_train_probs_loop (self : FittedEnsemble Bag) (insts : list nat)
    : result (list (list npfloat)) :=
  match insts with
  | [] => Ok []
  | i :: rest =>
      dists <- train_dists self i ;;
      results <- get_train_probs_loop self rest ;;
      Ok (dists :: results)
  end.

(** [BOSSEnsemble.get_train_probs]; [X] is read for its number of rows. *)
Definition get_train_probs (self : FittedEnsemble Bag) (X : list Series)
    : result (list (list npfloat)) :=
  get_train_probs_loop self (seq 0 (length X)).

(** What [find_ensemble_train_acc] stores, column by column: the position
    of the true class, the position of the predicted class and the
    distribution of one training instance. *)
Record train_column : Type := mkColumn {
  true_class : Z;
  predicted_class : nat;
  column_dists : list npfloat
}.

(** The loop of [find_ensemble_train_acc] over [range(num_inst)]. *)
Fixpoint find_ensemble_train_acc_loop (self : FittedEnsemble Bag)
    (y : list Z) (insts : list nat) (correct : Z)
    : result (Z * list train_column) :=
  match insts with
  | [] => Ok (correct, [])
  | i :: rest =>
      dists <- train_dists self i ;;
      c <- np_argmax dists ;;
      yi <- py_get y i ;;
      let t := dict_get_default (class_dictionary self) yi (-1) in
      let correct' := if Z.of_nat c =? t then correct + 1 else correct in
      '(total, columns) <- find_ensemble_train_acc_loop self y rest correct' ;;
      Ok (total, mkColumn t c dists :: columns)
  end.

(** [BOSSEnsemble.find_ensemble_train_acc]: [results[0][0]] and the columns
    [1..num_inst] of [results]. *)
Definition find_ensemble_train_acc (self : FittedEnsemble Bag)
    (X : list Series) (y : list Z) : result (Q * list train_column) :=
  '(correct, columns) <-
     find_ensemble_train_acc_loop self y (seq 0 (length X)) 0 ;;
  acc <- py_truediv (inject_Z correct) (inject_Z (Z.of_nat (length X))) ;;
  Ok (acc, columns).

End EnsemblePrediction.

(** [fit], with lines 132-135: the object as prediction finds it. *)
Definition fit_object (Bag : Type) (boss_distance : Bag -> Bag -> Q -> Q)
    (sfa_fit_transform : SFA -> list Bag)
    (sfa_shorten_bags : SFA -> Z -> list Bag) (random_draws : nat -> draw)
    (self : BOSSEnsemble) (num_insts series_length : Z) (y : list Z)
    : result (FittedEnsemble Bag) :=
  f <- fit Bag boss_distance sfa_fit_transform sfa_shorten_bags random_draws
           self num_insts series_length y ;;
  Ok (mkFittedEnsemble f (np_unique y)
                       (class_dictionary_loop 0 (np_unique y) [])).


(** The values stand in strictly increasing order. *)
Fixpoint ascending (l : list Z) : Prop :=
  match l with
  | [] => True
  | a :: rest => Forall (fun b => a < b) rest /\ ascending rest
  end.

(** Every label a member predicts for [X] is a key of the class
    dictionary. *)
Definition votes_known {Bag Series : Type}
    (boss_distance : Bag -> Bag -> Q -> Q)
    (sfa_transform : SFA -> Series -> Bag)
    (self : FittedEnsemble Bag) (X : list Series) : Prop :=
  forall clf preds,
    In clf (classifiers (fitted self)) ->
    predict Bag boss_distance clf (map (sfa_transform (transform clf)) X)
    = Ok preds ->
    Forall (fun p => dict_get (class_dictionary self) p <> None) preds.

(** A row of probabilities: one number per class, each between 0 and 1,
    that sum to 1. *)
Definition distribution (num_classes : nat) (prob : list npfloat) : Prop :=
  length prob = num_classes /\
  exists qs, prob = map Fin qs /\
             Forall (fun q => (0 <= q <= 1)%Q) qs /\
             (Qsum qs == 1)%Q.

(** Position [k] holds the number [v], no position holds a greater number
    and no earlier position holds [v] or more. *)
Definition first_maximum (prob : list npfloat) (k : nat) (v : Q) : Prop :=
  nth_error prob k = Some (Fin v) /\
  (forall j v', nth_error prob j = Some (Fin v') -> (v' <= v)%Q) /\
  (forall j v', (j < k)%nat -> nth_error prob j = Some (Fin v') ->
                (v' < v)%Q).

(** Stand-ins for the prediction side: a test series is abstracted to the
    integer feature of its bag, whatever the transform. *)
Module PredictionFixture.

Definition transform_series (sfa : SFA) (x : Z) : Z := x.

(** Three members on the labels 0, 0, 1, 1. *)
Definition members : list (BOSSIndividual Z) :=
  [Fixture.member 0 Fixture.bags_all (4 # 4);
   Fixture.member 1 Fixture.bags_three (3 # 4);
   Fixture.member 2 Fixture.bags_half (2 # 4)].

Definition object : FittedEnsemble Z :=
  mkFittedEnsemble (mkFitted members 2 3 40) [0; 1] [(0, 0%nat); (1, 1%nat)].

(** An object whose search retained nothing. *)
Definition empty_object : FittedEnsemble Z :=
  mkFittedEnsemble (mkFitted [] 2 0 40) [0; 1] [(0, 0%nat); (1, 1%nat)].

End PredictionFixture.


(** Every row of counts has one entry per class and [m] votes in all. *)
Definition tallied (num_classes m : nat) (sums : list (list nat)) : Prop :=
  Forall (fun row => length row = num_classes /\ list_sum row = m) sums.


(** The entry is a number, neither [nan] nor [inf]. *)
Definition is_finite (x : npfloat) : Prop := exists q, x = Fin q.

(** The number of columns whose predicted class is the true class. *)
Fixpoint correct_columns (columns : list train_column) : Z :=
  match columns with
  | [] => 0
  | col :: rest =>
      (if Z.of_nat (predicted_class col) =? true_class col then 1 else 0)
      + correct_columns rest
  end.

(** A column of [find_ensemble_train_acc] for training instance [i]. *)
Definition column_of (d : dict) (y : list Z) (i : nat) (col : train_column)
    : Prop :=
  (exists yi, nth_error y i = Some yi /\
              true_class col = dict_get_default d yi (-1)) /\
  np_argmax (column_dists col) = Ok (predicted_class col).



(** * Properties *)

(** ** Comparisons and the error monad *)

Lemma Qltb_lt (x y : Q) : Qltb x y = true <-> (x < y)%Q.
Proof.
  unfold Qltb. rewrite negb_true_iff.
  split; intro H.
  - apply Qnot_le_lt. intro Hle. apply Qle_bool_iff in Hle. congruence.
  - destruct (Qle_bool y x) eqn:E; [|reflexivity].
    apply Qle_bool_iff in E. exfalso. apply (Qlt_not_le _ _ H). exact E.
Qed.

Lemma Qltb_ge (x y : Q) : Qltb x y = false <-> (y <= x)%Q.
Proof.
  unfold Qltb. rewrite negb_false_iff. apply Qle_bool_iff.
Qed.

Lemma Qgeb_le (x y : Q) : Qgeb x y = true <-> (y <= x)%Q.
Proof. unfold Qgeb. apply Qle_bool_iff. Qed.

Lemma Qgtb_lt (x y : Q) : Qgtb x y = true <-> (y < x)%Q.
Proof. unfold Qgtb. apply Qltb_lt. Qed.

Lemma bind_Ok {A B : Type} (m : result A) (k : A -> result B) (b : B) :
  bind m k = Ok b -> exists a, m = Ok a /\ k a = Ok b.
Proof.
  destruct m as [a|e]; simpl; intro H; [|discriminate].
  exists a. split; [reflexivity | exact H].
Qed.

Lemma py_get_Ok {A : Type} (l : list A) (n : nat) :
  (n < length l)%nat -> exists a, py_get l n = Ok a /\ nth_error l n = Some a.
Proof.
  intro H. unfold py_get.
  destruct (nth_error l n) as [a|] eqn:E.
  - exists a. split; reflexivity.
  - apply nth_error_None in E. lia.
Qed.

(** ** worst_of_best *)

Section WorstOfBest.

Context {Bag : Type}.

Lemma worst_of_best_loop_sentinel (cls : list (BOSSIndividual Bag)) :
  Forall (fun m => (0 <= accuracy m)%Q) cls ->
  forall c idx, worst_of_best_loop Bag c cls (-1) idx = ((-1)%Q, idx).
Proof.
  induction 1 as [|m cls Hm _ IH]; intros c idx; simpl.
  - reflexivity.
  - assert (E : Qltb (accuracy m) (-1) = false).
    { apply Qltb_ge. apply Qle_trans with 0%Q; [discriminate | exact Hm]. }
    rewrite E. apply IH.
Qed.

(** The index [worst_of_best] returns is a position of the list as soon
    as the list has one. *)
Lemma worst_of_best_loop_index (cls : list (BOSSIndividual Bag)) :
  forall c min_acc idx,
    (idx < c + length cls)%nat ->
    (snd (worst_of_best_loop Bag c cls min_acc idx) < c + length cls)%nat.
Proof.
  induction cls as [|m cls IH]; intros c min_acc idx H; simpl in *.
  - exact H.
  - destruct (Qltb (accuracy m) min_acc).
    + replace (c + S (length cls))%nat with (S c + length cls)%nat by lia.
      apply IH. lia.
    + replace (c + S (length cls))%nat with (S c + length cls)%nat by lia.
      apply IH. lia.
Qed.

End WorstOfBest.

(** C4: on a list of retained members whose cached accuracies are all
    non-negative, the comparison [classifier.accuracy < min_acc] of
    [worst_of_best] is false at every element, the first one included, and
    the function returns the initial pair: [min_acc = -1] and index [0],
    whatever the accuracies are. *)
Theorem worst_of_best_returns_sentinel {Bag : Type}
    (cls : list (BOSSIndividual Bag)) :
  Forall (fun m => (0 <= accuracy m)%Q) cls ->
  Forall (fun m => Qltb (accuracy m) (-1) = false) cls /\
  worst_of_best Bag cls = ((-1)%Q, 0%nat).
Proof.
  intro H. split.
  - apply Forall_impl with (2 := H). intros m Hm.
    apply Qltb_ge. apply Qle_trans with 0%Q; [discriminate | exact Hm].
  - unfold worst_of_best. apply worst_of_best_loop_sentinel. exact H.
Qed.

Lemma worst_of_best_returns_sentinel_witness :
  Forall (fun m => Qltb (accuracy m) (-1) = false)
         [Fixture.member 0 Fixture.bags_half (2 # 4);
          Fixture.member 1 Fixture.bags_all (4 # 4)] /\
  worst_of_best Z [Fixture.member 0 Fixture.bags_half (2 # 4);
                   Fixture.member 1 Fixture.bags_all (4 # 4)]
  = ((-1)%Q, 0%nat).
Proof.
  apply worst_of_best_returns_sentinel.
  repeat constructor; simpl; discriminate.
Defined.

(** ** The window-length grid *)

Lemma py_int_or_one (q : Q) :
  (if py_int q <? 1 then 1 else py_int q) = Z.max 1 (Qfloor q).
Proof.
  destruct q as [n d]. unfold py_int, Qfloor. simpl.
  destruct (Z_le_gt_dec 0 n) as [Hn|Hn].
  - rewrite Z.quot_div_nonneg by lia.
    destruct (Z.ltb_spec (n / Z.pos d) 1); lia.
  - assert (Hq : n ÷ Z.pos d <= 0).
    { replace n with (- - n) by lia. rewrite Z.quot_opp_l by lia.
      assert (0 <= (- n) ÷ Z.pos d) by (apply Z.quot_pos; lia). lia. }
    assert (Hd : n / Z.pos d < 0) by (apply Z.div_lt_upper_bound; lia).
    destruct (Z.ltb_spec (n ÷ Z.pos d) 1); lia.
Qed.

Lemma max_window_searches_nonzero (series_length : Z) :
  0 < series_length -> Qeq_bool (max_window_searches series_length) 0 = false.
Proof.
  intro H. destruct (Qeq_bool _ _) eqn:E; [|reflexivity].
  apply Qeq_bool_eq in E. unfold max_window_searches in E.
  unfold Qeq in E. simpl in E. lia.
Qed.

Lemma window_increment_Ok (series_length min_window : Z) :
  0 < series_length ->
  window_increment series_length min_window =
  Ok (Z.max 1 (Qfloor (inject_Z (series_length - min_window)
                       / (inject_Z series_length / 4)))).
Proof.
  intro H. unfold window_increment, py_truediv.
  rewrite max_window_searches_nonzero by exact H. simpl.
  rewrite py_int_or_one. reflexivity.
Qed.

Lemma window_increment_positive (series_length min_window win_inc : Z) :
  window_increment series_length min_window = Ok win_inc -> 1 <= win_inc.
Proof.
  unfold window_increment. intro H.
  apply bind_Ok in H. destruct H as [q [_ H]].
  injection H as H. subst win_inc.
  destruct (Z.ltb_spec (py_int q) 1); lia.
Qed.




(** The increment in integer arithmetic. *)
Lemma window_increment_quotient (series_length min_window : Z) :
  0 < series_length ->
  Qfloor (inject_Z (series_length - min_window) / (inject_Z series_length / 4))
  = 4 * (series_length - min_window) / series_length.
Proof.
  intro H.
  assert (E : (inject_Z (series_length - min_window)
               / (inject_Z series_length / 4)
               == (4 * (series_length - min_window))
                    # (Z.to_pos series_length))%Q).
  { rewrite (Qmake_Qdiv (4 * (series_length - min_window))
                        (Z.to_pos series_length)).
    rewrite Z2Pos.id by exact H. rewrite inject_Z_mult.
    assert (Hn : ~ (inject_Z series_length == 0)%Q).
    { intro E. unfold Qeq in E. simpl in E. lia. }
    change (inject_Z 4) with 4%Q. field. exact Hn. }
  rewrite (Qfloor_comp _ _ E). unfold Qfloor.
  rewrite Z2Pos.id by exact H. reflexivity.
Qed.




(** ** Nearest-neighbour search under the contract of the distance *)


Section NearestNeighbour.

Context {Bag : Type}.

(** The distance between two bags, and an implementation of it that takes
    a cutoff: below the cutoff it returns the distance; from the cutoff on
    it may return any value that is not below the cutoff.  The cutoffs of
    the search never exceed [sys.float_info.max]. *)
Variable d : Bag -> Bag -> Q.
Variable boss_distance : Bag -> Bag -> Q -> Q.

Hypothesis distance_below :
  forall a b cutoff,
    (d a b < cutoff)%Q -> (boss_distance a b cutoff == d a b)%Q.

Hypothesis distance_cut :
  forall a b cutoff,
    (cutoff <= float_max)%Q -> (cutoff <= d a b)%Q ->
    (cutoff <= boss_distance a b cutoff)%Q.






End NearestNeighbour.


Lemma Fixture_distance_below (a b : Z) (cutoff : Q) :
  (Fixture.sq_distance a b < cutoff)%Q ->
  (Fixture.distance a b cutoff == Fixture.sq_distance a b)%Q.
Proof.
  intro H. unfold Fixture.distance.
  destruct (Qgtb (Fixture.sq_distance a b) cutoff) eqn:E.
  - apply Qgtb_lt in E. exfalso. apply (Qlt_irrefl cutoff).
    apply Qlt_trans with (Fixture.sq_distance a b); assumption.
  - reflexivity.
Qed.



(** The labels of the run above: the bag nearest to 3 is bag 1, of class 0;
    the bag nearest to 9 is bag 2, of class 1. *)
Example predict_fixture :
  predict Z Fixture.distance (Fixture.member 0 Fixture.bags_all 1) [3; 9]
  = Ok [0; 1].
Proof. reflexivity. Qed.

(** ** Leave-one-out prediction *)

Section LeaveOneOut.

Context {Bag : Type}.
Variable d : Bag -> Bag -> Q.
Variable boss_distance : Bag -> Bag -> Q -> Q.

Hypothesis distance_below :
  forall a b cutoff,
    (d a b < cutoff)%Q -> (boss_distance a b cutoff == d a b)%Q.

Variable cv : list Z.
Variable t : Bag.
Variable train_num : nat.

(** Once a neighbour has been selected the result is a training label. *)
Lemma train_predict_loop_selected (rest : list Bag) :
  forall n best nn,
    other_label cv train_num nn ->
    (n + length rest <= length cv)%nat ->
    exists l,
      train_predict_loop Bag boss_distance cv t train_num n rest best nn
      = Ok l /\ other_label cv train_num l.
Proof.
  induction rest as [|bag rest IH]; intros n best nn Hnn Hlen; simpl in *.
  - exists nn. split; [reflexivity | exact Hnn].
  - destruct (Nat.eqb_spec n train_num) as [He|Hne].
    + apply IH; [exact Hnn | lia].
    + destruct (Qltb (boss_distance t bag best) best).
      * destruct (py_get_Ok cv n) as [c [Hc Hc']]; [lia|].
        rewrite Hc. simpl. apply IH; [|lia].
        exists n. split; assumption.
      * apply IH; [exact Hnn | lia].
Qed.

(** Before that, the first bag other than the excluded one is selected. *)
Lemma train_predict_loop_first (rest : list Bag) :
  forall n nn,
    (n + length rest <= length cv)%nat ->
    Forall (fun b => (d t b < float_max)%Q) rest ->
    (exists k, (n <= k < n + length rest)%nat /\ k <> train_num) ->
    exists l,
      train_predict_loop Bag boss_distance cv t train_num n rest
                         float_max nn
      = Ok l /\ other_label cv train_num l.
Proof.
  induction rest as [|bag rest IH]; intros n nn Hlen Hbound Hk; simpl in *.
  - destruct Hk as [k [Hk _]]. lia.
  - inversion Hbound as [|? ? Hb Hrest]; subst.
    destruct (Nat.eqb_spec n train_num) as [He|Hne].
    + apply IH; [lia | exact Hrest |].
      destruct Hk as [k [Hk Hk']]. exists k. split; [lia | exact Hk'].
    + assert (E : Qltb (boss_distance t bag float_max) float_max = true).
      { apply Qltb_lt. rewrite (distance_below t bag float_max Hb).
        exact Hb. }
      rewrite E.
      destruct (py_get_Ok cv n) as [c [Hc Hc']]; [lia|].
      rewrite Hc. simpl. apply train_predict_loop_selected; [|lia].
      exists n. split; assumption.
Qed.

(** Whatever the distance, the loop raises nothing when every position it
    visits has a label. *)
Lemma train_predict_loop_total (rest : list Bag) :
  forall n best nn,
    (n + length rest <= length cv)%nat ->
    exists l,
      train_predict_loop Bag boss_distance cv t train_num n rest best nn
      = Ok l.
Proof.
  induction rest as [|bag rest IH]; intros n best nn Hlen; simpl in *.
  - exists nn. reflexivity.
  - destruct (n =? train_num)%nat.
    + apply IH. lia.
    + destruct (Qltb (boss_distance t bag best) best).
      * destruct (py_get_Ok cv n) as [c [Hc Hc']]; [lia|].
        rewrite Hc. simpl. apply IH. lia.
      * apply IH. lia.
Qed.

End LeaveOneOut.

(** C6: when the training set holds at least one instance other than the
    excluded one, [train_predict] returns the class label of a training
    instance other than the excluded one, never the initial [-1] of the
    search as such.  The distance is held to its contract below the cutoff
    and distances are below [sys.float_info.max]. *)
Theorem train_predict_returns_training_label {Bag : Type}
    (d : Bag -> Bag -> Q) (boss_distance : Bag -> Bag -> Q -> Q)
    (self : BOSSIndividual Bag) (train_num : nat) :
  (forall a b cutoff,
      (d a b < cutoff)%Q -> (boss_distance a b cutoff == d a b)%Q) ->
  length (class_vals self) = length (transformed_data self) ->
  (train_num < length (transformed_data self))%nat ->
  (exists k, (k < length (transformed_data self))%nat /\ k <> train_num) ->
  (forall a b, In a (transformed_data self) -> In b (transformed_data self) ->
               (d a b < float_max)%Q) ->
  exists l,
    train_predict Bag boss_distance self train_num = Ok l /\
    other_label (class_vals self) train_num l /\
    In l (class_vals self).
Proof.
  intros Hbelow Hlen Hnum [k [Hk Hne]] Hbound. unfold train_predict.
  destruct (py_get_Ok (transformed_data self) train_num Hnum)
    as [t [Ht Ht']].
  rewrite Ht. simpl.
  destruct (train_predict_loop_first d boss_distance Hbelow
              (class_vals self) t train_num (transformed_data self) 0%nat (-1))
    as [l [Hrun Hl]].
  - simpl. lia.
  - apply Forall_forall. intros b Hb. apply Hbound; [|exact Hb].
    apply nth_error_In with train_num. exact Ht'.
  - exists k. split; [lia | exact Hne].
  - exists l. split; [exact Hrun|]. split; [exact Hl|].
    destruct Hl as [n [_ Hn]]. apply nth_error_In with n. exact Hn.
Qed.

Lemma train_predict_returns_training_label_witness :
  exists l,
    train_predict Z Fixture.distance (Fixture.member 0 Fixture.bags_half 0)
                  2%nat = Ok l /\
    other_label (class_vals (Fixture.member 0 Fixture.bags_half 0)) 2%nat l /\
    In l (class_vals (Fixture.member 0 Fixture.bags_half 0)).
Proof.
  apply (train_predict_returns_training_label Fixture.sq_distance
           Fixture.distance (Fixture.member 0 Fixture.bags_half 0) 2%nat).
  - exact Fixture_distance_below.
  - reflexivity.
  - simpl. lia.
  - exists 0%nat. simpl. split; [lia | discriminate].
  - intros a b Ha Hb. simpl in Ha, Hb.
    repeat (destruct Ha as [Ha|Ha]; [subst a|]); try contradiction;
      repeat (destruct Hb as [Hb|Hb]; [subst b|]); try contradiction;
      vm_compute; reflexivity.
Defined.

(** With no instance besides the excluded one the loop selects nothing and
    the initial [-1] comes back. *)
Example train_predict_singleton :
  train_predict Z Fixture.distance
    (mkBOSS (O, O) 10 8 4 true (mkSFA 8 4 10 true) [5] [1] 0) 0%nat
  = Ok (-1).
Proof. reflexivity. Qed.

(** ** The retention step *)

Section Retention.

Context {Bag : Type}.
Variable self : BOSSEnsemble.

Lemma same_object_refl (x : BOSSIndividual Bag) : same_object x x = true.
Proof. unfold same_object. rewrite !Nat.eqb_refl. reflexivity. Qed.

Lemma py_remove_length (x : BOSSIndividual Bag) (l l' : list _) :
  py_remove x l = Ok l' -> length l = S (length l').
Proof.
  revert l'. induction l as [|a l IH]; intros l' H; simpl in H.
  - discriminate.
  - destruct (same_object a x).
    + injection H as <-. reflexivity.
    + apply bind_Ok in H. destruct H as [l'' [H1 H2]].
      injection H2 as <-. simpl. rewrite (IH l'' H1). reflexivity.
Qed.

Lemma py_remove_In (x : BOSSIndividual Bag) (l : list _) :
  In x l -> exists l', py_remove x l = Ok l'.
Proof.
  induction l as [|a l IH]; intro H; simpl in *.
  - contradiction.
  - destruct (same_object a x) eqn:E.
    + exists l. reflexivity.
    + destruct H as [H|H].
      * subst a. rewrite same_object_refl in E. discriminate.
      * destruct (IH H) as [l' Hl']. rewrite Hl'. simpl.
        exists (a :: l'). reflexivity.
Qed.



(** ... and comes to its end within [length cls] steps. *)
Lemma evict_loop_total (fuel : nat) (m : Q) :
  forall c (cls : list (BOSSIndividual Bag)),
    (length cls <= fuel + c)%nat ->
    exists cls', evict_loop Bag self fuel m c cls = Ok cls'.
Proof.
  induction fuel as [|fuel IH]; intros c cls Hlen; simpl.
  - destruct (nth_error cls c) as [x|] eqn:E.
    + assert (c < length cls)%nat by (apply nth_error_Some; congruence).
      lia.
    + exists cls. reflexivity.
  - destruct (nth_error cls c) as [x|] eqn:E; [|exists cls; reflexivity].
    destruct (Qltb (accuracy x) (m * threshold self)).
    + destruct (py_remove_In x cls) as [cls1 H1].
      { apply nth_error_In with c. exact E. }
      rewrite H1. simpl. apply IH.
      apply py_remove_length in H1. lia.
    + apply IH. lia.
Qed.

Lemma worst_of_best_index (cls : list (BOSSIndividual Bag)) :
  cls <> [] -> (snd (worst_of_best Bag cls) < length cls)%nat.
Proof.
  intro H. unfold worst_of_best.
  apply (worst_of_best_loop_index cls 0 (-1)%Q 0%nat).
  destruct cls; [congruence | simpl; lia].
Qed.


(** A retention step raises nothing. *)
Lemma retain_total (st : search_state Bag) (best : BOSSIndividual Bag)
    (acc : Q) (wl : Z) :
  0 <= max_ensemble_size self ->
  exists st', retain Bag self st best acc wl = Ok st' /\
              next_cell st' = next_cell st.
Proof.
  intros Hmax. unfold retain.
  destruct (include_in_ensemble self acc (max_acc st) (min_max_acc st) _);
    [|exists st; split; reflexivity].
  set (cls := st_classifiers st ++ _).
  assert (H1 : exists m1 cls1,
             (if Qgtb acc (max_acc st)
              then cls' <- evict_loop Bag self (length cls) acc 0 cls ;;
                   Ok (acc, cls')
              else Ok (max_acc st, cls)) = Ok (m1, cls1)).
  { destruct (Qgtb acc (max_acc st)).
    - destruct (evict_loop_total (length cls) acc 0 cls) as [cls' He];
        [lia|].
      rewrite He. simpl. exists acc, cls'. reflexivity.
    - exists (max_acc st), cls. reflexivity. }
  destruct H1 as [m1 [cls1 H1]]. rewrite H1. simpl.
  pose proof (worst_of_best_index cls1) as Hidx.
  destruct (worst_of_best Bag cls1) as [mm idx]. simpl in Hidx.
  rewrite Z.gtb_ltb.
  destruct (Z.ltb_spec (max_ensemble_size self) (Z.of_nat (length cls1))).
  - unfold py_del.
    assert (Hne : cls1 <> [])
      by (destruct cls1; [simpl in *; lia | congruence]).
    destruct (Nat.ltb_spec idx (length cls1)) as [Hi|Hi];
      [|specialize (Hidx Hne); lia].
    simpl. destruct (worst_of_best Bag _) as [mm2 idx2].
    eexists. split; reflexivity.
  - eexists. split; reflexivity.
Qed.

End Retention.

(** ** The grid search *)

Section GridSearch.

Context {Bag : Type}.
Variable boss_distance : Bag -> Bag -> Q -> Q.
Variable sfa_fit_transform : SFA -> list Bag.
Variable sfa_shorten_bags : SFA -> Z -> list Bag.
Variable self : BOSSEnsemble.
Variable y : list Z.
Variable num_insts : Z.

Hypothesis cap_nonneg : 0 <= max_ensemble_size self.




End GridSearch.

(** ** The randomised loop *)

Section Randomised.

Context {Bag : Type}.
Variable sfa_fit_transform : SFA -> list Bag.
Variable random_draws : nat -> draw.
Variable self : BOSSEnsemble.
Variable y : list Z.
Variable series_length win_inc : Z.


Lemma randint_error (raw a b : Z) (e : exn) :
  randint raw a b = Raise e -> e = ValueError.
Proof.
  unfold randint. destruct (b <? a); intro H; [congruence | discriminate].
Qed.

Lemma randint_float_error (raw a : Z) (b : Q) (e : exn) :
  randint_float raw a b = Raise e -> e = ValueError.
Proof.
  unfold randint_float. destruct (Qeq_bool _ _); intro H.
  - apply randint_error in H. exact H.
  - congruence.
Qed.

Lemma py_index_error {A : Type} (l : list A) (i : Z) (e : exn) :
  py_index l i = Raise e -> e = IndexError.
Proof.
  unfold py_index. destruct (_ && _).
  - destruct (nth_error _ _); intro H; [discriminate | congruence].
  - intro H. congruence.
Qed.

(** [ensemble_size] iterations are enough: the model of the loop never
    stops for want of steps. *)
Lemma randomised_loop_fuel (fuel : nat) :
  forall k (cls : list (BOSSIndividual Bag)),
    ensemble_size self - Z.of_nat (length cls) <= Z.of_nat fuel ->
    randomised_loop Bag sfa_fit_transform random_draws self fuel y
                    series_length win_inc k cls <> Raise OutOfFuel.
Proof.
  induction fuel as [|fuel IH]; intros k cls Hfuel; simpl.
  - destruct (Z.ltb_spec (Z.of_nat (length cls)) (ensemble_size self));
      [lia | discriminate].
  - destruct (Z.ltb_spec (Z.of_nat (length cls)) (ensemble_size self));
      [|discriminate].
    destruct (randint _ _ _) as [i|e] eqn:E1; simpl;
      [|apply randint_error in E1; subst e; discriminate].
    destruct (py_index _ i) as [word_len|e] eqn:E2; simpl;
      [|apply py_index_error in E2; subst e; discriminate].
    destruct (randint_float _ _ _) as [j|e] eqn:E3; simpl;
      [|apply randint_float_error in E3; subst e; discriminate].
    destruct (py_index _ word_len) as [wl|e] eqn:E4; simpl;
      [|apply py_index_error in E4; subst e; discriminate].
    apply IH. rewrite length_app. simpl. lia.
Qed.

End Randomised.




(** ** Runs of the search that leave the specification *)

(** The eviction scan of lines 196-198 steps over the member that follows a
    removed one: of two members below the bound in a row, the second stays. *)
Example evict_loop_skips_next :
  evict_loop Z default_ensemble 3 1 0
    [Fixture.member 0 Fixture.bags_half (2 # 4);
     Fixture.member 1 Fixture.bags_half (2 # 4);
     Fixture.member 2 Fixture.bags_all (4 # 4)]
  = Ok [Fixture.member 1 Fixture.bags_half (2 # 4);
        Fixture.member 2 Fixture.bags_all (4 # 4)].
Proof. reflexivity. Qed.

(** C1, on a run of [fit]: with the default threshold 0.92 and cells whose
    winners score 0.5, 0.5 and 1.0 in this order (nothing above 0 later),
    [fit] returns two members with cached accuracies 0.5 and 1.0; the first
    is below 0.92 times the best retained accuracy. *)
Theorem fit_retains_member_below_threshold :
  exists f,
    Fixture.run default_ensemble Fixture.table_half_half_all Fixture.y = Ok f /\
    map accuracy (classifiers f) = [2 # 4; 4 # 4] /\
    map oid (classifiers f) = [(1, 4); (2, 4)]%nat /\
    ~ retention_invariant default_ensemble (classifiers f).
Proof.
  eexists. split; [vm_compute; reflexivity|].
  split; [reflexivity|]. split; [reflexivity|].
  intro H. inversion H as [|m l Hm Hl]; subst.
  vm_compute in Hm. apply Hm. reflexivity.
Qed.

(** C2, on a run of [fit] with [max_ensemble_size = 1]: after a first cell
    scoring 0.5 the ensemble is full and its lowest accuracy is 0.5, yet
    [min_max_acc] is [-1]; a second candidate scoring 0.5 is not above the
    lowest accuracy, so the rule of the specification rejects it, and
    [include_in_ensemble] accepts it: the member [fit] returns is the one of
    the second cell. *)
Theorem include_in_ensemble_accepts_against_rule :
  exists st1 f,
    retain Z (Fixture.with_cap 1 (92 # 100)) (mkState [] (-1) (-1) 0)
           (Fixture.member 0 Fixture.bags_half 0) (2 # 4) 8 = Ok st1 /\
    st_classifiers st1 = [Fixture.member 0 Fixture.bags_half (2 # 4)] /\
    min_max_acc st1 = (-1)%Q /\
    lowest_retained_accuracy (st_classifiers st1) = 2 # 4 /\
    include_in_ensemble (Fixture.with_cap 1 (92 # 100)) (2 # 4)
                        (max_acc st1) (min_max_acc st1)
                        (Z.of_nat (length (st_classifiers st1))) = true /\
    retention_rule (Fixture.with_cap 1 (92 # 100)) (st_classifiers st1)
                   (2 # 4) = false /\
    Fixture.run (Fixture.with_cap 1 (92 # 100)) Fixture.table_half_half
                Fixture.y = Ok f /\
    map oid (classifiers f) = [(1, 4)]%nat.
Proof.
  eexists. eexists. split; [vm_compute; reflexivity|].
  split; [reflexivity|]. split; [reflexivity|]. split; [reflexivity|].
  split; [reflexivity|]. split; [reflexivity|].
  split; [vm_compute; reflexivity|]. reflexivity.
Qed.

(** C3, on a run of [fit] with [max_ensemble_size = 1] and threshold 0.5:
    the ensemble holds a member of accuracy 1.0 and a candidate of accuracy
    0.75 is appended; the lowest accuracy is at position 1, [worst_of_best]
    answers position 0, and the member of accuracy 1.0 is the one deleted. *)
Theorem fit_evicts_first_member_not_worst :
  exists st2 f,
    retain Z (Fixture.with_cap 1 (1 # 2))
           (mkState [Fixture.member 0 Fixture.bags_all (4 # 4)] (4 # 4) (-1) 1)
           (Fixture.member 1 Fixture.bags_three 0) (3 # 4) 8 = Ok st2 /\
    lowest_accuracy_index [Fixture.member 0 Fixture.bags_all (4 # 4);
                           Fixture.member 1 Fixture.bags_three (3 # 4)]
    = 1%nat /\
    worst_of_best Z [Fixture.member 0 Fixture.bags_all (4 # 4);
                     Fixture.member 1 Fixture.bags_three (3 # 4)]
    = ((-1)%Q, 0%nat) /\
    st_classifiers st2 = [Fixture.member 1 Fixture.bags_three (3 # 4)] /\
    Fixture.run (Fixture.with_cap 1 (1 # 2)) Fixture.table_all_three
                Fixture.y = Ok f /\
    map accuracy (classifiers f) = [3 # 4] /\
    map oid (classifiers f) = [(1, 4)]%nat.
Proof.
  eexists. eexists. split; [vm_compute; reflexivity|].
  split; [reflexivity|]. split; [reflexivity|]. split; [reflexivity|].
  split; [vm_compute; reflexivity|]. split; reflexivity.
Qed.

(** ** Randomised mode with the default word lengths *)

Lemma default_word_length_not_a_position (raw : Z) :
  exists w,
    py_index default_word_lengths (0 + raw mod (5 - 1 - 0 + 1)) = Ok w /\
    py_index default_word_lengths w = Raise IndexError.
Proof.
  pose proof (Z.mod_pos_bound raw 5 ltac:(lia)) as Hb.
  change (5 - 1 - 0 + 1) with 5.
  assert (H : raw mod 5 = 0 \/ raw mod 5 = 1 \/ raw mod 5 = 2 \/
              raw mod 5 = 3 \/ raw mod 5 = 4) by lia.
  destruct H as [H|[H|[H|[H|H]]]]; rewrite H;
    eexists; split; reflexivity.
Qed.

Lemma randomised_loop_default_first {Bag : Type}
    (sfa_fit_transform : SFA -> list Bag) (random_draws : nat -> draw)
    (fuel : nat) (y : list Z) (L win_inc : Z) :
  (exists e,
      randomised_loop Bag sfa_fit_transform random_draws default_randomised
                      (S fuel) y L win_inc 0 [] = Raise e /\
      e <> OutOfFuel) /\
  (randint_float (draw_window (random_draws 0%nat)) 0 (max_window_searches L)
   <> Raise ValueError ->
   randomised_loop Bag sfa_fit_transform random_draws default_randomised
                   (S fuel) y L win_inc 0 [] = Raise IndexError).
Proof.
  cbn [randomised_loop].
  cbn [length ensemble_size default_randomised word_lengths
       default_word_lengths].
  change (Z.of_nat 0 <? 100) with true. cbv iota.
  fold default_word_lengths.
  destruct (default_word_length_not_a_position
              (draw_word (random_draws 0%nat))) as [w [Hw Herr]].
  assert (Hr : randint (draw_word (random_draws 0%nat)) 0 (Z.of_nat 5 - 1)
               = Ok (0 + draw_word (random_draws 0%nat) mod (5 - 1 - 0 + 1)))
    by reflexivity.
  rewrite Hr. cbn [bind]. rewrite Hw. cbn [bind].
  destruct (randint_float _ _ _) as [j|e] eqn:Ej; cbn [bind].
  - rewrite Herr. cbn [bind]. split.
    + exists IndexError. split; [reflexivity | discriminate].
    + intros _. reflexivity.
  - apply randint_float_error in Ej. subst e. split.
    + exists ValueError. split; [reflexivity | discriminate].
    + intro H. congruence.
Qed.

(** C9, on the defaults with [randomised_ensemble=True]: whatever the
    training set and whatever the generator draws, the first iteration of
    the loop raises: the sampled word length (16, 14, 12, 10 or 8) is used
    as a position of the five-element list of word lengths.  No member is
    appended and [fit] does not return. *)
Theorem randomised_fit_default_raises {Bag : Type}
    (boss_distance : Bag -> Bag -> Q -> Q)
    (sfa_fit_transform : SFA -> list Bag)
    (sfa_shorten_bags : SFA -> Z -> list Bag)
    (random_draws : nat -> draw)
    (num_insts series_length : Z) (y : list Z) :
  (exists e,
      fit Bag boss_distance sfa_fit_transform sfa_shorten_bags random_draws
          default_randomised num_insts series_length y = Raise e /\
      e <> OutOfFuel) /\
  fit Bag boss_distance sfa_fit_transform sfa_shorten_bags random_draws
      default_randomised num_insts 40 y = Raise IndexError.
Proof.
  split.
  - unfold fit.
    destruct (window_increment series_length (min_window default_randomised))
      as [win_inc|e] eqn:Ew; cbn [bind].
    + cbn [randomised_ensemble default_randomised ensemble_size].
      change (Z.to_nat 100) with (S (Z.to_nat 99)).
      destruct (proj1 (randomised_loop_default_first sfa_fit_transform
                         random_draws (Z.to_nat 99) y series_length win_inc))
        as [e [He Hne]].
      rewrite He. cbn [bind]. exists e. split; [reflexivity | exact Hne].
    + exists e. split; [reflexivity|].
      unfold window_increment, py_truediv in Ew.
      destruct (Qeq_bool _ 0); cbn [bind] in Ew; [|discriminate].
      injection Ew as <-. discriminate.
  - unfold fit.
    change (window_increment 40 (min_window default_randomised)) with (Ok 3).
    cbn [bind randomised_ensemble default_randomised ensemble_size].
    change (Z.to_nat 100) with (S (Z.to_nat 99)).
    rewrite (proj2 (randomised_loop_default_first sfa_fit_transform
                      random_draws (Z.to_nat 99) y 40 3)); [reflexivity|].
    unfold randint_float.
    change (Qeq_bool (max_window_searches 40)
                     (inject_Z (Qfloor (max_window_searches 40)))) with true.
    cbv iota. unfold randint.
    change (Qfloor (max_window_searches 40) <? 0) with false.
    discriminate.
Qed.

(** ** [fit] in grid-search mode raises nothing on a well-formed training set *)

Section GridTotal.

Context {Bag : Type}.
Variable boss_distance : Bag -> Bag -> Q -> Q.
Variable sfa_fit_transform : SFA -> list Bag.
Variable sfa_shorten_bags : SFA -> Z -> list Bag.
Variable self : BOSSEnsemble.
Variable y : list Z.
Variable num_insts : Z.

Hypothesis some_instance : 0 < num_insts.
Hypothesis label_per_instance : length y = Z.to_nat num_insts.
Hypothesis bag_per_instance :
  forall sfa, length (sfa_fit_transform sfa) = Z.to_nat num_insts.
Hypothesis short_bag_per_instance :
  forall sfa w, length (sfa_shorten_bags sfa w) = Z.to_nat num_insts.
Hypothesis some_word_length : word_lengths self <> [].
Hypothesis cap_nonneg : 0 <= max_ensemble_size self.

Lemma train_predict_total (boss : BOSSIndividual Bag) (g : nat) :
  fitted_on y boss -> (g < length y)%nat ->
  exists l, train_predict Bag boss_distance boss g = Ok l.
Proof.
  intros [Hcv Hlen] Hg. unfold train_predict.
  destruct (py_get_Ok (transformed_data boss) g) as [t [Ht _]]; [lia|].
  rewrite Ht. cbn [bind].
  apply train_predict_loop_total. rewrite Hcv. simpl. lia.
Qed.

Lemma count_correct_total (boss : BOSSIndividual Bag) (gs : list nat) :
  fitted_on y boss ->
  Forall (fun g => (g < length y)%nat) gs ->
  forall correct,
    exists c, count_correct Bag boss_distance boss y gs correct = Ok c.
Proof.
  intros Hboss Hgs. induction Hgs as [|g gs Hg _ IH]; intro correct.
  - exists correct. reflexivity.
  - cbn [count_correct].
    destruct (train_predict_total boss g Hboss Hg) as [l Hl].
    rewrite Hl. cbn [bind].
    destruct (py_get_Ok y g Hg) as [yg [Hyg _]].
    rewrite Hyg. cbn [bind]. apply IH.
Qed.

Lemma loo_accuracy_total (boss : BOSSIndividual Bag) :
  fitted_on y boss ->
  exists a, loo_accuracy Bag boss_distance boss y num_insts = Ok a.
Proof.
  intro Hboss. unfold loo_accuracy.
  destruct (count_correct_total boss (seq 0 (Z.to_nat num_insts)) Hboss)
    with (correct := 0) as [c Hc].
  { apply Forall_forall. intros g Hg. apply in_seq in Hg. lia. }
  rewrite Hc. cbn [bind]. unfold py_truediv.
  assert (E : Qeq_bool (inject_Z num_insts) 0 = false).
  { destruct (Qeq_bool _ _) eqn:E; [|reflexivity].
    apply Qeq_bool_eq in E. unfold Qeq in E. simpl in E. lia. }
  rewrite E. eexists. reflexivity.
Qed.

Lemma shorten_bags_fitted (id : nat * nat) (boss : BOSSIndividual Bag)
    (word_len : Z) :
  fitted_on y boss ->
  fitted_on y (shorten_bags Bag sfa_shorten_bags id boss word_len).
Proof.
  intros [Hcv Hlen]. split; simpl.
  - exact Hcv.
  - rewrite short_bag_per_instance. symmetry. exact label_per_instance.
Qed.

Lemma word_length_loop_total (cell : nat) (wls : list Z) :
  forall n boss best best_acc best_word_len,
    fitted_on y boss ->
    exists r,
      word_length_loop Bag boss_distance sfa_shorten_bags cell y num_insts
                       n wls boss best best_acc best_word_len = Ok r.
Proof.
  induction wls as [|word_len rest IH];
    intros n boss best best_acc best_word_len Hboss.
  - eexists. reflexivity.
  - cbn [word_length_loop].
    set (boss' := if (0 <? n)%nat then _ else boss).
    assert (Hboss' : fitted_on y boss').
    { unfold boss'. destruct (0 <? n)%nat;
        [apply shorten_bags_fitted|]; exact Hboss. }
    destruct (loo_accuracy_total boss' Hboss') as [a Ha].
    rewrite Ha. cbn [bind].
    destruct (Qgeb a best_acc); apply IH; exact Hboss'.
Qed.

Lemma best_for_win_size_total (cell : nat) (normalise : bool)
    (win_size : Z) :
  exists r,
    best_for_win_size Bag boss_distance sfa_fit_transform sfa_shorten_bags
                      self cell y num_insts normalise win_size = Ok r.
Proof.
  unfold best_for_win_size.
  destruct (word_lengths self) as [|w0 wls] eqn:Hw; [congruence|].
  change (py_index (w0 :: wls) 0) with (Ok w0). cbn [bind].
  apply word_length_loop_total. split; simpl.
  - reflexivity.
  - rewrite bag_per_instance. symmetry. exact label_per_instance.
Qed.

Lemma grid_cell_total (normalise : bool) (st : search_state Bag)
    (win_size : Z) :
  exists st',
    grid_cell Bag boss_distance sfa_fit_transform sfa_shorten_bags self
              y num_insts normalise st win_size = Ok st'.
Proof.
  unfold grid_cell.
  destruct (best_for_win_size_total (next_cell st) normalise win_size)
    as [[[best acc] wl] Hb].
  rewrite Hb. cbn [bind].
  destruct (retain_total self st best acc wl cap_nonneg) as [st1 [Hr _]].
  rewrite Hr. cbn [bind]. eexists. reflexivity.
Qed.

Lemma window_loop_total (normalise : bool) (wins : list Z) :
  forall st,
    exists st',
      window_loop Bag boss_distance sfa_fit_transform sfa_shorten_bags self
                  y num_insts normalise wins st = Ok st'.
Proof.
  induction wins as [|w wins IH]; intro st; cbn [window_loop].
  - eexists. reflexivity.
  - destruct (grid_cell_total normalise st w) as [st1 H1].
    rewrite H1. cbn [bind]. apply IH.
Qed.

Lemma norm_loop_total (wins : list Z) (norms : list bool) :
  forall st,
    exists st',
      norm_loop Bag boss_distance sfa_fit_transform sfa_shorten_bags self
                y num_insts wins norms st = Ok st'.
Proof.
  induction norms as [|b norms IH]; intro st; cbn [norm_loop].
  - eexists. reflexivity.
  - destruct (window_loop_total b wins st) as [st1 H1].
    rewrite H1. cbn [bind]. apply IH.
Qed.

End GridTotal.

(** In grid-search mode [fit] returns on every well-formed training set. *)
Lemma fit_grid_returns {Bag : Type}
    (boss_distance : Bag -> Bag -> Q -> Q)
    (sfa_fit_transform : SFA -> list Bag)
    (sfa_shorten_bags : SFA -> Z -> list Bag)
    (random_draws : nat -> draw) (self : BOSSEnsemble)
    (num_insts series_length : Z) (y : list Z) :
  randomised_ensemble self = false ->
  0 < series_length ->
  0 < num_insts ->
  length y = Z.to_nat num_insts ->
  (forall sfa, length (sfa_fit_transform sfa) = Z.to_nat num_insts) ->
  (forall sfa w, length (sfa_shorten_bags sfa w) = Z.to_nat num_insts) ->
  word_lengths self <> [] ->
  0 <= max_ensemble_size self ->
  exists f,
    fit Bag boss_distance sfa_fit_transform sfa_shorten_bags random_draws self
        num_insts series_length y = Ok f /\
    num_classes f = length (nodup Z.eq_dec y).
Proof.
  intros Hmode Hlen Hn Hy Hft Hsb Hwl Hcap. unfold fit.
  rewrite (window_increment_Ok series_length (min_window self) Hlen).
  cbn [bind]. rewrite Hmode.
  destruct (norm_loop_total boss_distance sfa_fit_transform sfa_shorten_bags
              self y num_insts Hn Hy Hft Hsb Hwl Hcap
              (window_sizes series_length (min_window self)
                 (Z.max 1 (Qfloor (inject_Z (series_length - min_window self)
                                   / (inject_Z series_length / 4)))))
              (norm_options self) (mkState [] (-1) (-1) 0)) as [st Hst].
  rewrite Hst. cbn [bind]. eexists. split; reflexivity.
Qed.

(** C10 as the code has it: [fit] counts the distinct labels into
    [num_classes] and tests nothing about the count.  In grid-search mode, on
    a training set with at least one instance, one label and one bag per
    instance and a positive series length, with a non-empty list of word
    lengths and a non-negative [max_ensemble_size], [fit] called with labels
    of fewer than two distinct classes returns normally, and [num_classes]
    is the number of distinct labels. *)
Theorem fit_accepts_any_class_count {Bag : Type}
    (boss_distance : Bag -> Bag -> Q -> Q)
    (sfa_fit_transform : SFA -> list Bag)
    (sfa_shorten_bags : SFA -> Z -> list Bag)
    (random_draws : nat -> draw) (self : BOSSEnsemble)
    (num_insts series_length : Z) (y : list Z) :
  (length (nodup Z.eq_dec y) < 2)%nat ->
  randomised_ensemble self = false ->
  0 < series_length ->
  0 < num_insts ->
  length y = Z.to_nat num_insts ->
  (forall sfa, length (sfa_fit_transform sfa) = Z.to_nat num_insts) ->
  (forall sfa w, length (sfa_shorten_bags sfa w) = Z.to_nat num_insts) ->
  word_lengths self <> [] ->
  0 <= max_ensemble_size self ->
  exists f,
    fit Bag boss_distance sfa_fit_transform sfa_shorten_bags random_draws self
        num_insts series_length y = Ok f /\
    num_classes f = length (nodup Z.eq_dec y) /\
    (num_classes f < 2)%nat.
Proof.
  intros Hfew Hmode Hlen Hn Hy Hft Hsb Hwl Hcap.
  destruct (fit_grid_returns boss_distance sfa_fit_transform sfa_shorten_bags
              random_draws self num_insts series_length y
              Hmode Hlen Hn Hy Hft Hsb Hwl Hcap) as [f [Hf Hc]].
  exists f. split; [exact Hf|]. split; [exact Hc|].
  rewrite Hc. exact Hfew.
Qed.

Lemma Fixture_bag_per_instance (sfa : SFA) :
  length (Fixture.fit_transform [] Fixture.bags_none sfa) = Z.to_nat 4.
Proof.
  unfold Fixture.fit_transform. destruct (sfa_norm sfa); reflexivity.
Qed.

Lemma fit_accepts_any_class_count_witness :
  exists f,
    fit Z Fixture.distance (Fixture.fit_transform [] Fixture.bags_none)
        (Fixture.shorten [] Fixture.bags_none) Fixture.draws default_ensemble
        4 40 [7; 7; 7; 7] = Ok f /\
    num_classes f = length (nodup Z.eq_dec [7; 7; 7; 7]) /\
    (num_classes f < 2)%nat.
Proof.
  apply (fit_accepts_any_class_count Fixture.distance
           (Fixture.fit_transform [] Fixture.bags_none)
           (Fixture.shorten [] Fixture.bags_none) Fixture.draws
           default_ensemble 4 40 [7; 7; 7; 7]).
  - simpl. lia.
  - reflexivity.
  - lia.
  - lia.
  - reflexivity.
  - exact Fixture_bag_per_instance.
  - intros sfa w. exact (Fixture_bag_per_instance sfa).
  - discriminate.
  - simpl. lia.
Defined.

(** C10 as the specification words it fails: on four series that all carry
    the label 7, [fit] raises nothing; it records one class and returns an
    ensemble of 22 members, one per grid cell, each with leave-one-out
    accuracy 1. *)
Lemma fit_single_class_returns :
  exists f,
    Fixture.run default_ensemble [] [7; 7; 7; 7] = Ok f /\
    length (nodup Z.eq_dec [7; 7; 7; 7]) = 1%nat /\
    num_classes f = 1%nat /\
    num_classifiers f = 22%nat /\
    Forall (fun m => accuracy m = 4 # 4) (classifiers f).
Proof.
  eexists. split; [vm_compute; reflexivity|].
  split; [reflexivity|]. split; [reflexivity|]. split; [reflexivity|].
  repeat constructor.
Qed.

(** ** What the sentinel of [worst_of_best] does to the search

    Leave-one-out accuracies are never negative, so [min_max_acc] stays at
    [-1] throughout [fit], the test [acc > min_max_acc] of
    [include_in_ensemble] always succeeds, and a full ensemble makes room by
    deleting position 0. *)

Section Sentinel.

Context {Bag : Type}.
Variable self : BOSSEnsemble.


Lemma py_remove_nonneg (x : BOSSIndividual Bag) (l l' : list _) :
  py_remove x l = Ok l' -> nonneg l -> nonneg l'.
Proof.
  revert l'. induction l as [|a l IH]; intros l' H Hl; simpl in H.
  - discriminate.
  - inversion Hl as [|? ? Ha Hl']; subst.
    destruct (same_object a x).
    + injection H as <-. exact Hl'.
    + apply bind_Ok in H. destruct H as [l'' [H1 H2]].
      injection H2 as <-. constructor; [exact Ha|].
      apply (IH l'' H1 Hl').
Qed.

Lemma evict_loop_nonneg (fuel : nat) (m : Q) :
  forall c (cls cls' : list (BOSSIndividual Bag)),
    evict_loop Bag self fuel m c cls = Ok cls' -> nonneg cls -> nonneg cls'.
Proof.
  induction fuel as [|fuel IH]; intros c cls cls' H Hcls; simpl in H.
  - destruct (nth_error cls c); [discriminate|].
    injection H as <-. exact Hcls.
  - destruct (nth_error cls c) as [x|]; [|injection H as <-; exact Hcls].
    destruct (Qltb (accuracy x) (m * threshold self)).
    + apply bind_Ok in H. destruct H as [cls1 [H1 H2]].
      apply (IH _ _ _ H2). apply (py_remove_nonneg x cls cls1 H1 Hcls).
    + apply (IH _ _ _ H Hcls).
Qed.

Lemma py_del_nonneg (l l' : list (BOSSIndividual Bag)) (n : nat) :
  py_del l n = Ok l' -> nonneg l -> nonneg l'.
Proof.
  unfold py_del. destruct (n <? length l)%nat; intros H Hl; [|discriminate].
  assert (E : l' = firstn n l ++ skipn (S n) l) by congruence.
  rewrite E. clear H E. revert l Hl.
  induction n as [|n IH]; intros l Hl.
  - destruct l as [|a l]; [constructor|].
    inversion Hl; subst. assumption.
  - destruct l as [|a l]; [constructor|].
    inversion Hl as [|? ? Ha Hl']; subst.
    change (nonneg (a :: (firstn n l ++ skipn (S n) l))).
    constructor; [exact Ha | apply IH; exact Hl'].
Qed.

(** One retention step keeps the accuracies non-negative and
    [min_max_acc] at [-1]; when the ensemble overflows, the member
    deleted is the one at position 0. *)
Lemma retain_sentinel (st st' : search_state Bag)
    (best : BOSSIndividual Bag) (acc : Q) (wl : Z) :
  nonneg (st_classifiers st) ->
  min_max_acc st = (-1)%Q ->
  (0 <= acc)%Q ->
  retain Bag self st best acc wl = Ok st' ->
  nonneg (st_classifiers st') /\ min_max_acc st' = (-1)%Q.
Proof.
  intros Hst Hmm Hacc H. unfold retain in H.
  destruct (include_in_ensemble self acc (max_acc st) (min_max_acc st) _);
    [|injection H as <-; split; assumption].
  apply bind_Ok in H. destruct H as [[m1 cls1] [H1 H2]].
  assert (Happ : nonneg (st_classifiers st
                         ++ [set_accuracy Bag (set_word_len Bag best wl)
                                          acc])).
  { apply Forall_app. split; [exact Hst|].
    constructor; [exact Hacc | constructor]. }
  assert (Hc1 : nonneg cls1).
  { destruct (Qgtb acc (max_acc st)).
    - apply bind_Ok in H1. destruct H1 as [cls' [He Hr]].
      injection Hr as _ <-. apply (evict_loop_nonneg _ _ _ _ _ He Happ).
    - injection H1 as _ <-. exact Happ. }
  pose proof (worst_of_best_loop_sentinel cls1 Hc1 0%nat 0%nat) as Hw1.
  fold (worst_of_best Bag cls1) in Hw1. rewrite Hw1 in H2.
  destruct (Z.of_nat (length cls1) >? max_ensemble_size self).
  - apply bind_Ok in H2. destruct H2 as [cls2 [Hd Hr]].
    pose proof (py_del_nonneg cls1 cls2 0 Hd Hc1) as Hc2.
    pose proof (worst_of_best_loop_sentinel cls2 Hc2 0%nat 0%nat) as Hw2.
    fold (worst_of_best Bag cls2) in Hw2. rewrite Hw2 in Hr.
    injection Hr as <-. split; [exact Hc2 | reflexivity].
  - injection H2 as <-. split; [exact Hc1 | reflexivity].
Qed.

End Sentinel.

Section SentinelInFit.

Context {Bag : Type}.
Variable boss_distance : Bag -> Bag -> Q -> Q.
Variable sfa_fit_transform : SFA -> list Bag.
Variable sfa_shorten_bags : SFA -> Z -> list Bag.
Variable self : BOSSEnsemble.
Variable y : list Z.
Variable num_insts : Z.

Hypothesis some_instance : 0 < num_insts.

Lemma count_correct_grows (boss : BOSSIndividual Bag) (gs : list nat) :
  forall correct c,
    count_correct Bag boss_distance boss y gs correct = Ok c -> correct <= c.
Proof.
  induction gs as [|g gs IH]; intros correct c H; cbn [count_correct] in H.
  - injection H as <-. lia.
  - apply bind_Ok in H. destruct H as [l [_ H]].
    apply bind_Ok in H. destruct H as [yg [_ H]].
    apply IH in H. destruct (l =? yg); lia.
Qed.

Lemma loo_accuracy_nonneg (boss : BOSSIndividual Bag) (a : Q) :
  loo_accuracy Bag boss_distance boss y num_insts = Ok a -> (0 <= a)%Q.
Proof.
  unfold loo_accuracy. intro H.
  apply bind_Ok in H. destruct H as [c [Hc H]].
  apply count_correct_grows in Hc.
  unfold py_truediv in H. destruct (Qeq_bool _ _); [discriminate|].
  injection H as <-.
  apply Qle_shift_div_l.
  - change 0%Q with (inject_Z 0). rewrite <- Zlt_Qlt. exact some_instance.
  - rewrite Qmult_0_l. change 0%Q with (inject_Z 0). rewrite <- Zle_Qle.
    exact Hc.
Qed.

Lemma word_length_loop_nonneg (cell : nat) (wls : list Z) :
  forall n boss best best_acc best_word_len b acc wl,
    (0 <= best_acc)%Q \/ wls <> [] ->
    word_length_loop Bag boss_distance sfa_shorten_bags cell y num_insts
                     n wls boss best best_acc best_word_len
    = Ok (b, acc, wl) ->
    (0 <= acc)%Q.
Proof.
  induction wls as [|word_len rest IH];
    intros n boss best best_acc best_word_len b acc wl Hor H;
    cbn [word_length_loop] in H.
  - injection H as _ <- _. destruct Hor as [Hb|Hne]; [exact Hb | congruence].
  - apply bind_Ok in H. destruct H as [a [Ha H]].
    apply loo_accuracy_nonneg in Ha.
    destruct (Qgeb a best_acc) eqn:E.
    + apply IH in H; [exact H | left; exact Ha].
    + apply IH in H; [exact H|]. left.
      destruct (Qle_bool best_acc a) eqn:E'; [unfold Qgeb in E; congruence|].
      apply Qlt_le_weak. apply Qle_lt_trans with a; [exact Ha|].
      apply Qltb_lt. unfold Qltb. rewrite E'. reflexivity.
Qed.

(** The sentinel survives every grid cell. *)
Lemma grid_cell_sentinel (normalise : bool) (st st' : search_state Bag)
    (win_size : Z) :
  word_lengths self <> [] ->
  nonneg (st_classifiers st) -> min_max_acc st = (-1)%Q ->
  grid_cell Bag boss_distance sfa_fit_transform sfa_shorten_bags self
            y num_insts normalise st win_size = Ok st' ->
  nonneg (st_classifiers st') /\ min_max_acc st' = (-1)%Q.
Proof.
  intros Hwl Hst Hmm H. unfold grid_cell in H.
  apply bind_Ok in H. destruct H as [[[best acc] wl] [Hb H]].
  apply bind_Ok in H. destruct H as [st1 [Hr H]].
  injection H as <-. cbn [st_classifiers min_max_acc].
  apply (retain_sentinel self st st1 best acc wl Hst Hmm); [|exact Hr].
  unfold best_for_win_size in Hb.
  apply bind_Ok in Hb. destruct Hb as [w0 [_ Hb]].
  apply word_length_loop_nonneg in Hb; [exact Hb|]. right. exact Hwl.
Qed.

Lemma window_loop_sentinel (normalise : bool) (wins : list Z) :
  forall st st',
    nonneg (st_classifiers st) -> min_max_acc st = (-1)%Q ->
    window_loop Bag boss_distance sfa_fit_transform sfa_shorten_bags self
                y num_insts normalise wins st = Ok st' ->
    nonneg (st_classifiers st') /\ min_max_acc st' = (-1)%Q.
Proof.
  induction wins as [|w wins IH]; intros st st' Hst Hmm H;
    cbn [window_loop] in H.
  - injection H as <-. split; assumption.
  - apply bind_Ok in H. destruct H as [st1 [Hc H]].
    assert (Hwl : word_lengths self <> []).
    { intro E. unfold grid_cell, best_for_win_size in Hc. rewrite E in Hc.
      discriminate. }
    destruct (grid_cell_sentinel normalise st st1 w Hwl Hst Hmm Hc)
      as [Hst1 Hmm1].
    apply (IH st1 st' Hst1 Hmm1 H).
Qed.

(** Throughout the grid search [min_max_acc] is [-1], whatever the retained
    accuracies are. *)
Lemma norm_loop_sentinel (wins : list Z) (norms : list bool) :
  forall st st',
    nonneg (st_classifiers st) -> min_max_acc st = (-1)%Q ->
    norm_loop Bag boss_distance sfa_fit_transform sfa_shorten_bags self
              y num_insts wins norms st = Ok st' ->
    nonneg (st_classifiers st') /\ min_max_acc st' = (-1)%Q.
Proof.
  induction norms as [|b norms IH]; intros st st' Hst Hmm H;
    cbn [norm_loop] in H.
  - injection H as <-. split; assumption.
  - apply bind_Ok in H. destruct H as [st1 [Hw H]].
    destruct (window_loop_sentinel b wins st st1 Hst Hmm Hw) as [Hst1 Hmm1].
    apply (IH st1 st' Hst1 Hmm1 H).
Qed.

End SentinelInFit.

(** * Further properties *)

(** ** Leave-one-out prediction is prediction without the instance *)




Section LeaveOneOutAsPredict.

Context {Bag : Type}.
Variable boss_distance : Bag -> Bag -> Q -> Q.
Variable cv : list Z.
Variable t : Bag.
Variable i : nat.



End LeaveOneOutAsPredict.






(** ** The labels a classifier can return *)

Lemma predict_loop_label {Bag : Type} (boss_distance : Bag -> Bag -> Q -> Q)
    (cv : list Z) (t : Bag) (bags : list Bag) :
  forall n best nn l,
    nn = -1 \/ In nn cv ->
    predict_loop Bag boss_distance cv t n bags best nn = Ok l ->
    l = -1 \/ In l cv.
Proof.
  induction bags as [|bag rest IH]; intros n best nn l Hnn H;
    cbn [predict_loop] in H.
  - injection H as <-. exact Hnn.
  - destruct (Qltb (boss_distance t bag best) best).
    + apply bind_Ok in H. destruct H as [c [Hc H]].
      assert (Hin : In c cv).
      { unfold py_get in Hc. destruct (nth_error cv n) as [c'|] eqn:E;
          [|discriminate].
        injection Hc as <-. apply nth_error_In with n. exact E. }
      apply (IH _ _ _ _ (or_intror Hin) H).
    + apply (IH _ _ _ _ Hnn H).
Qed.

(** X3: whatever the distance function does, when [predict] returns it gives
    one label per test bag, and each of them is a label of the training set
    or the initial [-1] of the search. *)
Theorem predict_returns_known_labels {Bag : Type}
    (boss_distance : Bag -> Bag -> Q -> Q) (self : BOSSIndividual Bag)
    (test_bags : list Bag) (labels : list Z) :
  predict Bag boss_distance self test_bags = Ok labels ->
  length labels = length test_bags /\
  Forall (fun l => l = -1 \/ In l (class_vals self)) labels.
Proof.
  revert labels.
  induction test_bags as [|t rest IH]; intros labels H; cbn [predict] in H.
  - injection H as <-. split; [reflexivity | constructor].
  - apply bind_Ok in H. destruct H as [c [Hc H]].
    apply bind_Ok in H. destruct H as [cs [Hcs H]].
    injection H as <-. destruct (IH cs Hcs) as [Hlen Hall].
    split; [simpl; rewrite Hlen; reflexivity|].
    constructor; [|exact Hall].
    unfold predict_one in Hc.
    apply (predict_loop_label boss_distance (class_vals self) t _ _ _ _ _
             (or_introl eq_refl) Hc).
Qed.

Lemma predict_returns_known_labels_witness :
  length [0; 1] = length [3; 9] /\
  Forall (fun l => l = -1 \/
                   In l (class_vals (Fixture.member 0 Fixture.bags_all 1)))
         [0; 1].
Proof.
  apply (predict_returns_known_labels Fixture.distance
           (Fixture.member 0 Fixture.bags_all 1) [3; 9] [0; 1]).
  reflexivity.
Defined.

(** ** The eviction scan, member by member *)

Section EvictionScan.

Context {Bag : Type}.
Variable self : BOSSEnsemble.

Lemma same_object_oid (a x : BOSSIndividual Bag) :
  same_object a x = true <-> oid a = oid x.
Proof.
  unfold same_object. rewrite andb_true_iff, !Nat.eqb_eq.
  destruct (oid a) as [a1 a2], (oid x) as [x1 x2]. simpl.
  split; [intros [-> ->]; reflexivity | intro H; injection H; auto].
Qed.

(** [remove] takes out the object itself when no earlier element is that
    object. *)
Lemma py_remove_middle (x : BOSSIndividual Bag) (pre rest : list _) :
  ~ In (oid x) (map oid pre) ->
  py_remove x (pre ++ x :: rest) = Ok (pre ++ rest).
Proof.
  induction pre as [|a pre IH]; intro Hx; simpl.
  - rewrite same_object_refl. reflexivity.
  - destruct (same_object a x) eqn:E.
    + apply same_object_oid in E. exfalso. apply Hx. left. exact E.
    + rewrite IH; [reflexivity|]. intro H. apply Hx. right. exact H.
Qed.

Lemma evict_loop_skipping (m : Q) (fuel : nat) :
  forall pre rest : list (BOSSIndividual Bag),
    NoDup (map oid (pre ++ rest)) ->
    (length rest <= fuel)%nat ->
    evict_loop Bag self fuel m (length pre) (pre ++ rest)
    = Ok (pre ++ evict_skipping (m * threshold self) rest).
Proof.
  induction fuel as [|fuel IH]; intros pre rest Hnd Hlen.
  - destruct rest as [|x rest]; [|simpl in Hlen; lia].
    cbn [evict_loop evict_skipping].
    rewrite (proj2 (nth_error_None (pre ++ []) (length pre)))
      by (rewrite app_nil_r; lia).
    reflexivity.
  - destruct rest as [|x rest].
    + cbn [evict_loop evict_skipping].
      rewrite (proj2 (nth_error_None (pre ++ []) (length pre)))
        by (rewrite app_nil_r; lia).
      reflexivity.
    + cbn [evict_loop evict_skipping].
      rewrite nth_error_app2 by lia. rewrite Nat.sub_diag. cbn [nth_error].
      assert (Hstep : forall y rest',
                 pre ++ y :: rest' = (pre ++ [y]) ++ rest')
        by (intros; rewrite <- app_assoc; reflexivity).
      assert (Hlen1 : forall y, length (pre ++ [y]) = S (length pre))
        by (intros; rewrite length_app; simpl; lia).
      destruct (Qltb (accuracy x) (m * threshold self)).
      * rewrite map_app in Hnd. cbn [map] in Hnd.
        pose proof (NoDup_remove_1 _ _ _ Hnd) as Hnd1.
        pose proof (NoDup_remove_2 _ _ _ Hnd) as Hnd2.
        rewrite py_remove_middle
          by (intro H; apply Hnd2; apply in_or_app; left; exact H).
        cbn [bind]. rewrite <- map_app in Hnd1.
        destruct rest as [|d rest'].
        -- destruct fuel; cbn [evict_loop];
             rewrite (proj2 (nth_error_None (pre ++ []) (S (length pre))))
               by (rewrite app_nil_r; lia);
             reflexivity.
        -- rewrite (Hstep d rest'), <- (Hlen1 d).
           rewrite (IH (pre ++ [d]) rest').
           ++ rewrite <- app_assoc. reflexivity.
           ++ rewrite <- Hstep. exact Hnd1.
           ++ simpl in Hlen. lia.
      * rewrite (Hstep x rest), <- (Hlen1 x).
        rewrite (IH (pre ++ [x]) rest).
        -- rewrite <- app_assoc. reflexivity.
        -- rewrite <- Hstep. exact Hnd.
        -- simpl in Hlen. lia.
Qed.


End EvictionScan.

(** X4: on a list of distinct classifier objects, the loop of lines 196-198
    returns what a single pass leaves that drops each member found below
    [max_acc * threshold] and steps over the member that follows it without
    examining it. *)
Theorem evict_loop_is_skipping_scan {Bag : Type} (self : BOSSEnsemble)
    (max_acc : Q) (cls : list (BOSSIndividual Bag)) :
  NoDup (map oid cls) ->
  evict_loop Bag self (length cls) max_acc 0 cls
  = Ok (evict_skipping (max_acc * threshold self) cls).
Proof.
  intro Hnd.
  apply (evict_loop_skipping self max_acc (length cls) [] cls).
  - exact Hnd.
  - lia.
Qed.

Lemma evict_loop_is_skipping_scan_witness :
  evict_loop Z default_ensemble
    (length [Fixture.member 0 Fixture.bags_half (2 # 4);
             Fixture.member 1 Fixture.bags_half (2 # 4);
             Fixture.member 2 Fixture.bags_all (4 # 4)]) 1 0
    [Fixture.member 0 Fixture.bags_half (2 # 4);
     Fixture.member 1 Fixture.bags_half (2 # 4);
     Fixture.member 2 Fixture.bags_all (4 # 4)]
  = Ok (evict_skipping (1 * threshold default_ensemble)
          [Fixture.member 0 Fixture.bags_half (2 # 4);
           Fixture.member 1 Fixture.bags_half (2 # 4);
           Fixture.member 2 Fixture.bags_all (4 # 4)]).
Proof.
  apply (evict_loop_is_skipping_scan default_ensemble 1).
  simpl. repeat constructor; simpl; intuition discriminate.
Defined.



(** ** What the retention step can leave in the ensemble *)

Section RetainedMembers.

Context {Bag : Type}.
Variable self : BOSSEnsemble.







End RetainedMembers.

(** ** Invariants of the two outer loops *)

Section LoopInvariant.

Context {Bag : Type}.
Variable boss_distance : Bag -> Bag -> Q -> Q.
Variable sfa_fit_transform : SFA -> list Bag.
Variable sfa_shorten_bags : SFA -> Z -> list Bag.
Variable self : BOSSEnsemble.
Variable y : list Z.
Variable num_insts : Z.

Variable I : search_state Bag -> Prop.

Hypothesis grid_cell_keeps :
  forall normalise st st' win_size,
    I st ->
    grid_cell Bag boss_distance sfa_fit_transform sfa_shorten_bags self
              y num_insts normalise st win_size = Ok st' ->
    I st'.



End LoopInvariant.

(** ** The cached accuracy of a retained member *)

Section CachedAccuracy.

Context {Bag : Type}.
Variable boss_distance : Bag -> Bag -> Q -> Q.
Variable sfa_fit_transform : SFA -> list Bag.
Variable sfa_shorten_bags : SFA -> Z -> list Bag.
Variable self : BOSSEnsemble.
Variable y : list Z.
Variable num_insts : Z.

Hypothesis some_instance : 0 < num_insts.

(** The leave-one-out accuracy reads the bags and the labels of a
    classifier and nothing else. *)
Lemma count_correct_ext (a b : BOSSIndividual Bag) (gs : list nat) :
  transformed_data a = transformed_data b ->
  class_vals a = class_vals b ->
  forall correct,
    count_correct Bag boss_distance a y gs correct
    = count_correct Bag boss_distance b y gs correct.
Proof.
  intros Hd Hc. induction gs as [|g gs IH]; intro correct;
    cbn [count_correct].
  - reflexivity.
  - assert (Htp : train_predict Bag boss_distance a g
                   = train_predict Bag boss_distance b g)
      by (unfold train_predict; rewrite Hd, Hc; reflexivity).
    rewrite Htp.
    destruct (train_predict Bag boss_distance b g) as [l|e]; cbn [bind];
      [|reflexivity].
    destruct (py_get y g) as [yg|e]; cbn [bind]; [|reflexivity].
    apply IH.
Qed.

Lemma loo_accuracy_ext (a b : BOSSIndividual Bag) :
  transformed_data a = transformed_data b ->
  class_vals a = class_vals b ->
  loo_accuracy Bag boss_distance a y num_insts
  = loo_accuracy Bag boss_distance b y num_insts.
Proof.
  intros Hd Hc. unfold loo_accuracy.
  rewrite (count_correct_ext a b _ Hd Hc). reflexivity.
Qed.

Lemma count_correct_bound (boss : BOSSIndividual Bag) (gs : list nat) :
  forall correct c,
    count_correct Bag boss_distance boss y gs correct = Ok c ->
    correct <= c <= correct + Z.of_nat (length gs).
Proof.
  induction gs as [|g gs IH]; intros correct c H; cbn [count_correct] in H.
  - injection H as <-. simpl. lia.
  - apply bind_Ok in H. destruct H as [l [_ H]].
    apply bind_Ok in H. destruct H as [yg [_ H]].
    apply IH in H. cbn [length]. destruct (l =? yg); lia.
Qed.

Lemma loo_accuracy_range (boss : BOSSIndividual Bag) (a : Q) :
  loo_accuracy Bag boss_distance boss y num_insts = Ok a ->
  (0 <= a <= 1)%Q.
Proof.
  unfold loo_accuracy. intro H.
  apply bind_Ok in H. destruct H as [c [Hc H]].
  apply count_correct_bound in Hc. rewrite length_seq in Hc.
  rewrite Z2Nat.id in Hc by lia.
  unfold py_truediv in H. destruct (Qeq_bool _ _); [discriminate|].
  injection H as <-.
  assert (Hn : (0 < inject_Z num_insts)%Q).
  { change 0%Q with (inject_Z 0). rewrite <- Zlt_Qlt. exact some_instance. }
  split.
  - apply Qle_shift_div_l; [exact Hn|].
    rewrite Qmult_0_l. change 0%Q with (inject_Z 0). rewrite <- Zle_Qle. lia.
  - apply Qle_shift_div_r; [exact Hn|].
    rewrite Qmult_1_l. rewrite <- Zle_Qle. lia.
Qed.




End CachedAccuracy.



(** ** The order of the retained members *)

Section GridOrder.

Context {Bag : Type}.
Variable boss_distance : Bag -> Bag -> Q -> Q.
Variable sfa_fit_transform : SFA -> list Bag.
Variable sfa_shorten_bags : SFA -> Z -> list Bag.
Variable self : BOSSEnsemble.
Variable y : list Z.
Variable num_insts : Z.













End GridOrder.





(** ** The running best accuracy and the sentinel *)

Section RunningBest.

Context {Bag : Type}.
Variable boss_distance : Bag -> Bag -> Q -> Q.
Variable sfa_fit_transform : SFA -> list Bag.
Variable sfa_shorten_bags : SFA -> Z -> list Bag.
Variable self : BOSSEnsemble.
Variable y : list Z.
Variable num_insts : Z.

Hypothesis some_instance : 0 < num_insts.



End RunningBest.



(** ** The word length a grid cell settles on *)

Section WordLengthChoice.

Context {Bag : Type}.
Variable boss_distance : Bag -> Bag -> Q -> Q.
Variable sfa_fit_transform : SFA -> list Bag.
Variable sfa_shorten_bags : SFA -> Z -> list Bag.
Variable y : list Z.
Variable num_insts : Z.
Variable sfa : SFA.

Hypothesis some_instance : 0 < num_insts.

Lemma position_accuracy_of (boss : BOSSIndividual Bag) (n : nat)
    (word_len : Z) :
  transformed_data boss
  = cell_bags sfa_fit_transform sfa_shorten_bags sfa n word_len ->
  class_vals boss = y ->
  loo_accuracy Bag boss_distance boss y num_insts
  = position_accuracy boss_distance sfa_fit_transform sfa_shorten_bags sfa
                      y num_insts n word_len.
Proof.
  intros Hd Hc. unfold position_accuracy.
  apply loo_accuracy_ext; [rewrite Hd; reflexivity | exact Hc].
Qed.

Lemma word_length_loop_selects (cell : nat) (rest : list Z) :
  forall pre boss best best_acc best_wl i b acc wl,
    pre <> [] ->
    transform boss = sfa -> class_vals boss = y ->
    selected boss_distance sfa_fit_transform sfa_shorten_bags sfa y
             num_insts pre i best best_acc best_wl ->
    word_length_loop Bag boss_distance sfa_shorten_bags cell y num_insts
                     (length pre) rest boss best best_acc best_wl
    = Ok (b, acc, wl) ->
    exists n,
      selected boss_distance sfa_fit_transform sfa_shorten_bags sfa y
               num_insts (pre ++ rest) n b acc wl.
Proof.
  induction rest as [|word_len rest IH];
    intros pre boss best best_acc best_wl i b acc wl Hne Hsfa Hcv Hsel H;
    cbn [word_length_loop] in H.
  - injection H as <- <- <-. exists i. rewrite app_nil_r. exact Hsel.
  - destruct Hsel as [Hi [Hwl [Hbags [Hacc [Hmax Hlater]]]]].
    assert (Hpos : (0 <? length pre)%nat = true).
    { apply Nat.ltb_lt. destruct pre; [congruence | simpl; lia]. }
    rewrite Hpos in H.
    set (boss' := shorten_bags Bag sfa_shorten_bags (cell, length pre) boss
                               word_len) in H.
    assert (Hbags' : transformed_data boss'
                     = cell_bags sfa_fit_transform sfa_shorten_bags sfa
                                 (length pre) word_len).
    { unfold boss'. cbn [transformed_data shorten_bags]. rewrite Hsfa.
      destruct (length pre) eqn:E; [|reflexivity].
      rewrite Nat.ltb_irrefl in Hpos. discriminate. }
    assert (Hcv' : class_vals boss' = y) by exact Hcv.
    assert (Hsfa' : transform boss' = sfa) by exact Hsfa.
    apply bind_Ok in H. destruct H as [a [Ha H]].
    rewrite (position_accuracy_of boss' (length pre) word_len Hbags' Hcv')
      in Ha.
    assert (Hi' : (i < length pre)%nat)
      by (apply nth_error_Some; congruence).
    assert (Happ : pre ++ word_len :: rest = (pre ++ [word_len]) ++ rest)
      by (rewrite <- app_assoc; reflexivity).
    assert (Hlen1 : length (pre ++ [word_len]) = S (length pre))
      by (rewrite length_app; simpl; lia).
    assert (Hne1 : pre ++ [word_len] <> [])
      by (destruct pre; discriminate).
    assert (Hsplit : forall m w,
               nth_error (pre ++ [word_len]) m = Some w ->
               ((m < length pre)%nat /\ nth_error pre m = Some w) \/
               (m = length pre /\ w = word_len)).
    { intros m w Hm.
      destruct (Nat.lt_ge_cases m (length pre)) as [Hlt|Hge].
      - left. split; [exact Hlt|].
        rewrite nth_error_app1 in Hm by exact Hlt. exact Hm.
      - right. rewrite nth_error_app2 in Hm by exact Hge.
        destruct (m - length pre)%nat as [|k] eqn:Ek; simpl in Hm.
        + split; [lia | congruence].
        + destruct k; discriminate. }
    rewrite Happ. rewrite <- Hlen1 in H.
    destruct (Qgeb a best_acc) eqn:E.
    + apply Qgeb_le in E.
      apply (IH (pre ++ [word_len]) boss' boss' a word_len (length pre)
                b acc wl Hne1 Hsfa' Hcv'); [|exact H].
      split; [|split; [|split; [|split; [|split]]]].
      * rewrite nth_error_app2 by lia. rewrite Nat.sub_diag. reflexivity.
      * reflexivity.
      * exact Hbags'.
      * exact Ha.
      * intros m w a' Hm Ha'.
        destruct (Hsplit m w Hm) as [[_ Hp]|[Hm' Hw]].
        -- apply Qle_trans with best_acc; [|exact E].
           apply (Hmax m w a' Hp Ha').
        -- subst m w. rewrite Ha in Ha'. injection Ha' as <-.
           apply Qle_refl.
      * intros m w a' Hlt Hm Ha'.
        destruct (Hsplit m w Hm) as [[Hlt' _]|[Hm' _]]; lia.
    + assert (Hlt : (a < best_acc)%Q).
      { apply Qltb_lt. unfold Qltb. unfold Qgeb in E. rewrite E.
        reflexivity. }
      apply (IH (pre ++ [word_len]) boss' best best_acc best_wl i
                b acc wl Hne1 Hsfa' Hcv'); [|exact H].
      split; [|split; [|split; [|split; [|split]]]].
      * rewrite nth_error_app1 by exact Hi'. exact Hi.
      * exact Hwl.
      * exact Hbags.
      * exact Hacc.
      * intros m w a' Hm Ha'.
        destruct (Hsplit m w Hm) as [[_ Hp]|[Hm' Hw]].
        -- apply (Hmax m w a' Hp Ha').
        -- subst m w. rewrite Ha in Ha'. injection Ha' as <-.
           apply Qlt_le_weak. exact Hlt.
      * intros m w a' Hlt' Hm Ha'.
        destruct (Hsplit m w Hm) as [[_ Hp]|[Hm' Hw]].
        -- apply (Hlater m w a' Hlt' Hp Ha').
        -- subst m w. rewrite Ha in Ha'. injection Ha' as <-. exact Hlt.
Qed.

End WordLengthChoice.

(** X9: the winner of a grid cell is the classifier of one position of
    [word_lengths], with that word length and that position's bags (the
    fitted bags at position 0, the shortened bags afterwards); its accuracy
    is the leave-one-out accuracy of that position, no position has a higher
    one, and every later position has a strictly lower one: on equal
    accuracy the later, shorter word length wins. *)
Theorem best_for_win_size_selects_last_best {Bag : Type}
    (boss_distance : Bag -> Bag -> Q -> Q)
    (sfa_fit_transform : SFA -> list Bag)
    (sfa_shorten_bags : SFA -> Z -> list Bag)
    (self : BOSSEnsemble) (cell : nat) (y : list Z) (num_insts : Z)
    (normalise : bool) (win_size : Z)
    (b : BOSSIndividual Bag) (acc : Q) (wl : Z) :
  0 < num_insts ->
  best_for_win_size Bag boss_distance sfa_fit_transform sfa_shorten_bags
                    self cell y num_insts normalise win_size
  = Ok (b, acc, wl) ->
  exists n word_length0,
    nth_error (word_lengths self) 0 = Some word_length0 /\
    selected boss_distance sfa_fit_transform sfa_shorten_bags
             (mkSFA word_length0 (ens_alphabet_size self)
                    (inject_Z win_size) normalise)
             y num_insts (word_lengths self) n b acc wl.
Proof.
  intros Hn H. unfold best_for_win_size in H.
  destruct (word_lengths self) as [|w0 rest] eqn:Hwls; [discriminate|].
  change (py_index (w0 :: rest) 0) with (Ok w0) in H. cbn [bind] in H.
  set (sfa := mkSFA w0 (ens_alphabet_size self) (inject_Z win_size)
                    normalise).
  set (boss := BOSSIndividual_fit Bag sfa_fit_transform _ y) in H.
  cbn [word_length_loop] in H. change (0 <? 0)%nat with false in H.
  cbv iota in H.
  apply bind_Ok in H. destruct H as [a [Ha H]].
  rewrite (position_accuracy_of boss_distance sfa_fit_transform
             sfa_shorten_bags y num_insts sfa boss 0 w0 eq_refl eq_refl)
    in Ha.
  assert (Hrange : (0 <= a)%Q).
  { unfold position_accuracy in Ha.
    apply (loo_accuracy_range boss_distance y num_insts Hn) in Ha.
    destruct Ha as [Ha _]. exact Ha. }
  assert (Hge : Qgeb a (-1) = true).
  { apply Qgeb_le. apply Qle_trans with 0%Q; [discriminate | exact Hrange]. }
  rewrite Hge in H.
  destruct (word_length_loop_selects boss_distance sfa_fit_transform
              sfa_shorten_bags y num_insts sfa cell rest [w0] boss boss a w0
              0%nat b acc wl) as [n Hsel].
  - discriminate.
  - reflexivity.
  - reflexivity.
  - split; [reflexivity|]. split; [reflexivity|]. split; [reflexivity|].
    split; [exact Ha|]. split.
    + intros [|m] w a' Hm Ha'.
      * injection Hm as <-. rewrite Ha in Ha'. injection Ha' as <-.
        apply Qle_refl.
      * destruct m; discriminate.
    + intros [|m] w a' Hlt Hm Ha'; [lia|]. destruct m; discriminate.
  - exact H.
  - exists n, w0. split; [reflexivity | exact Hsel].
Qed.

Lemma best_for_win_size_selects_last_best_witness :
  exists b acc wl,
    best_for_win_size Z Fixture.distance
      (Fixture.fit_transform Fixture.table_half_half_all Fixture.bags_none)
      (Fixture.shorten Fixture.table_half_half_all Fixture.bags_none)
      default_ensemble 0 Fixture.y 4 true 10
    = Ok (b, acc, wl) /\
    exists n word_length0,
      nth_error (word_lengths default_ensemble) 0 = Some word_length0 /\
      selected Fixture.distance
        (Fixture.fit_transform Fixture.table_half_half_all Fixture.bags_none)
        (Fixture.shorten Fixture.table_half_half_all Fixture.bags_none)
        (mkSFA word_length0 (ens_alphabet_size default_ensemble)
               (inject_Z 10) true)
        Fixture.y 4 (word_lengths default_ensemble) n b acc wl.
Proof.
  eexists. eexists. eexists. split; [vm_compute; reflexivity|].
  apply (best_for_win_size_selects_last_best Fixture.distance
           (Fixture.fit_transform Fixture.table_half_half_all
                                  Fixture.bags_none)
           (Fixture.shorten Fixture.table_half_half_all Fixture.bags_none)
           default_ensemble 0 Fixture.y 4 true 10).
  - lia.
  - vm_compute. reflexivity.
Defined.

(** ** Degenerate inputs of [fit] *)


Lemma window_sizes_first (series_length min_window win_inc : Z) :
  min_window <= series_length -> 1 <= win_inc ->
  exists rest, window_sizes series_length min_window win_inc
               = min_window :: rest.
Proof.
  intros Hle Hw. unfold window_sizes, py_range, range_len.
  destruct (Z.ltb_spec min_window (series_length + 1)) as [_|H]; [|lia].
  assert (Hq : 0 <= (series_length + 1 - min_window - 1) / win_inc)
    by (apply Z.div_pos; lia).
  destruct (Z.to_nat ((series_length + 1 - min_window - 1) / win_inc + 1))
    as [|k] eqn:Ek; [lia|].
  cbn [seq map]. eexists. f_equal. simpl. lia.
Qed.

(** X11: on an empty training set ([X] of shape (0, series_length)) the
    grid search raises [ZeroDivisionError] at the first accuracy it
    computes, [correct / num_insts], as soon as the grid has a cell: a
    positive series length not below [min_window], a normalise option and a
    word length. *)
Theorem fit_raises_on_empty_training_set {Bag : Type}
    (boss_distance : Bag -> Bag -> Q -> Q)
    (sfa_fit_transform : SFA -> list Bag)
    (sfa_shorten_bags : SFA -> Z -> list Bag)
    (random_draws : nat -> draw) (self : BOSSEnsemble)
    (series_length : Z) (y : list Z) :
  randomised_ensemble self = false ->
  0 < series_length ->
  min_window self <= series_length ->
  norm_options self <> [] ->
  word_lengths self <> [] ->
  fit Bag boss_distance sfa_fit_transform sfa_shorten_bags random_draws self
      0 series_length y = Raise ZeroDivisionError.
Proof.
  intros Hmode Hlen Hmin Hnorm Hwl. unfold fit.
  pose proof (window_increment_Ok series_length (min_window self) Hlen) as Hw.
  pose proof (window_increment_positive _ _ _ Hw) as Hpos.
  rewrite Hw. cbn [bind]. rewrite Hmode.
  destruct (window_sizes_first series_length (min_window self) _ Hmin Hpos)
    as [wins Hwins].
  rewrite Hwins.
  destruct (norm_options self) as [|b norms]; [congruence|].
  cbn [norm_loop window_loop]. unfold grid_cell, best_for_win_size.
  destruct (word_lengths self) as [|w0 wls]; [congruence|].
  change (py_index (w0 :: wls) 0) with (Ok w0). cbn [bind].
  cbn [word_length_loop]. unfold loo_accuracy.
  change (seq 0 (Z.to_nat 0)) with (@nil nat). cbn [count_correct bind].
  reflexivity.
Qed.

Lemma fit_raises_on_empty_training_set_witness :
  fit Z Fixture.distance (Fixture.fit_transform [] []) (Fixture.shorten [] [])
      Fixture.draws default_ensemble 0 40 []
  = Raise ZeroDivisionError.
Proof.
  apply (fit_raises_on_empty_training_set Fixture.distance
           (Fixture.fit_transform [] []) (Fixture.shorten [] [])
           Fixture.draws default_ensemble 40 []).
  - reflexivity.
  - lia.
  - simpl. lia.
  - discriminate.
  - discriminate.
Defined.

(** X12: with an empty list of word lengths [fit] raises as soon as it
    needs one: [IndexError] at [self.word_lengths[0]] in the first grid
    cell, [ValueError] from [random.randint(0, -1)] in the first iteration
    of the randomised loop. *)
Theorem fit_raises_on_empty_word_lengths {Bag : Type}
    (boss_distance : Bag -> Bag -> Q -> Q)
    (sfa_fit_transform : SFA -> list Bag)
    (sfa_shorten_bags : SFA -> Z -> list Bag)
    (random_draws : nat -> draw) (self : BOSSEnsemble)
    (num_insts series_length : Z) (y : list Z) :
  word_lengths self = [] ->
  0 < series_length ->
  (randomised_ensemble self = false ->
   min_window self <= series_length -> norm_options self <> [] ->
   fit Bag boss_distance sfa_fit_transform sfa_shorten_bags random_draws
       self num_insts series_length y = Raise IndexError) /\
  (randomised_ensemble self = true -> 0 < ensemble_size self ->
   fit Bag boss_distance sfa_fit_transform sfa_shorten_bags random_draws
       self num_insts series_length y = Raise ValueError).
Proof.
  intros Hwl Hlen.
  pose proof (window_increment_Ok series_length (min_window self) Hlen) as Hw.
  pose proof (window_increment_positive _ _ _ Hw) as Hpos.
  split.
  - intros Hmode Hmin Hnorm. unfold fit. rewrite Hw. cbn [bind].
    rewrite Hmode.
    destruct (window_sizes_first series_length (min_window self) _ Hmin Hpos)
      as [wins Hwins].
    rewrite Hwins.
    destruct (norm_options self) as [|b norms]; [congruence|].
    cbn [norm_loop window_loop]. unfold grid_cell, best_for_win_size.
    rewrite Hwl. reflexivity.
  - intros Hmode Hsize. unfold fit. rewrite Hw. cbn [bind]. rewrite Hmode.
    destruct (Z.to_nat (ensemble_size self)) as [|fuel] eqn:E; [lia|].
    cbn [randomised_loop length].
    destruct (Z.ltb_spec (Z.of_nat 0) (ensemble_size self)) as [_|H];
      [|simpl in H; lia].
    rewrite Hwl. reflexivity.
Qed.

Lemma fit_raises_on_empty_word_lengths_witness :
  (randomised_ensemble (Fixture.randomised 3 2 []) = false ->
   min_window (Fixture.randomised 3 2 []) <= 40 ->
   norm_options (Fixture.randomised 3 2 []) <> [] ->
   fit Z Fixture.distance (Fixture.fit_transform [] Fixture.bags_none)
       (Fixture.shorten [] Fixture.bags_none) Fixture.draws
       (Fixture.randomised 3 2 []) 4 40 Fixture.y = Raise IndexError) /\
  (randomised_ensemble (Fixture.randomised 3 2 []) = true ->
   0 < ensemble_size (Fixture.randomised 3 2 []) ->
   fit Z Fixture.distance (Fixture.fit_transform [] Fixture.bags_none)
       (Fixture.shorten [] Fixture.bags_none) Fixture.draws
       (Fixture.randomised 3 2 []) 4 40 Fixture.y = Raise ValueError).
Proof.
  apply (fit_raises_on_empty_word_lengths Fixture.distance
           (Fixture.fit_transform [] Fixture.bags_none)
           (Fixture.shorten [] Fixture.bags_none) Fixture.draws
           (Fixture.randomised 3 2 []) 4 40 Fixture.y).
  - reflexivity.
  - lia.
Defined.

(** ** The members of a randomised ensemble *)





(** ** The class labels and the class dictionary *)

Lemma insert_sorted_In (x a : Z) (l : list Z) :
  In a (insert_sorted x l) <-> a = x \/ In a l.
Proof.
  induction l as [|b l IH]; simpl.
  - intuition.
  - destruct (Z.ltb_spec x b).
    + simpl. intuition.
    + destruct (Z.eqb_spec x b).
      * subst b. simpl. intuition.
      * simpl. rewrite IH. intuition.
Qed.

Lemma insert_sorted_ascending (x : Z) (l : list Z) :
  ascending l -> ascending (insert_sorted x l).
Proof.
  induction l as [|b l IH]; intro H; simpl.
  - split; [constructor | exact I].
  - destruct H as [Hb Hl]. destruct (Z.ltb_spec x b).
    + split; [|split; assumption].
      constructor; [assumption|].
      apply Forall_impl with (2 := Hb). intros c Hc. lia.
    + destruct (Z.eqb_spec x b); [split; assumption|].
      split; [|apply IH; exact Hl].
      apply Forall_forall. intros c Hc. apply insert_sorted_In in Hc.
      destruct Hc as [->|Hc]; [lia|].
      apply (proj1 (Forall_forall _ _) Hb c Hc).
Qed.

Lemma np_unique_ascending (y : list Z) : ascending (np_unique y).
Proof.
  induction y as [|a y IH]; simpl; [exact I|].
  apply insert_sorted_ascending. exact IH.
Qed.

Lemma np_unique_In (y : list Z) (c : Z) : In c (np_unique y) <-> In c y.
Proof.
  induction y as [|a y IH]; simpl; [reflexivity|].
  rewrite insert_sorted_In, IH. intuition.
Qed.






(** ** Votes and probabilities *)

Lemma add_at_spec (row : list nat) :
  forall k row',
    add_at row k = Ok row' ->
    length row' = length row /\ list_sum row' = S (list_sum row).
Proof.
  induction row as [|c row IH]; intros k row' H; simpl in H.
  - discriminate.
  - destruct k as [|k].
    + injection H as <-. split; reflexivity.
    + apply bind_Ok in H. destruct H as [rest' [H1 H2]].
      injection H2 as <-. destruct (IH k rest' H1) as [Hl Hs].
      split; simpl; lia.
Qed.

Lemma add_at_index_spec (row : list nat) (k : Z) (row' : list nat) :
  add_at_index row k = Ok row' ->
  length row' = length row /\ list_sum row' = S (list_sum row).
Proof.
  unfold add_at_index. destruct (_ && _); [|discriminate].
  apply add_at_spec.
Qed.

Lemma list_sum_bound (row : list nat) (c : nat) :
  In c row -> (c <= list_sum row)%nat.
Proof.
  induction row as [|a row IH]; intro H; simpl in *; [contradiction|].
  destruct H as [->|H]; [lia|]. specialize (IH H). lia.
Qed.

Lemma Qsum_counts (n : nat) (row : list nat) :
  (Qsum (map (fun c => inject_Z (Z.of_nat c) / inject_Z (Z.of_nat n)) row)
   == inject_Z (Z.of_nat (list_sum row)) / inject_Z (Z.of_nat n))%Q.
Proof.
  induction row as [|a row IH].
  - simpl. unfold Qdiv. rewrite Qmult_0_l. reflexivity.
  - change (list_sum (a :: row)) with (a + list_sum row)%nat.
    cbn [map Qsum fold_right]. fold (Qsum (map (fun c =>
      (inject_Z (Z.of_nat c) / inject_Z (Z.of_nat n))%Q) row)).
    rewrite IH, Nat2Z.inj_add, inject_Z_plus. unfold Qdiv. ring.
Qed.

(** Dividing a row of counts by their total gives a distribution. *)
Lemma counts_distribution (row : list nat) (n : nat) :
  list_sum row = S n ->
  distribution (length row) (map (fun c => np_div c (S n)) row).
Proof.
  intro Hsum. split; [apply length_map|].
  exists (map (fun c => (inject_Z (Z.of_nat c) / inject_Z (Z.of_nat (S n)))%Q)
              row).
  assert (Hn : (0 < inject_Z (Z.of_nat (S n)))%Q).
  { change 0%Q with (inject_Z 0). rewrite <- Zlt_Qlt. lia. }
  split; [rewrite map_map; reflexivity|]. split.
  - apply Forall_forall. intros q Hq. apply in_map_iff in Hq.
    destruct Hq as [c [<- Hc]]. apply list_sum_bound in Hc. split.
    + apply Qle_shift_div_l; [exact Hn|]. rewrite Qmult_0_l.
      change 0%Q with (inject_Z 0). rewrite <- Zle_Qle. lia.
    + apply Qle_shift_div_r; [exact Hn|]. rewrite Qmult_1_l.
      rewrite <- Zle_Qle. lia.
  - rewrite Qsum_counts, Hsum. apply Qmult_inv_r.
    intro E. rewrite E in Hn. apply (Qlt_irrefl 0 Hn).
Qed.

Section ProbabilityRows.

Context {Bag Series : Type}.
Variable boss_distance : Bag -> Bag -> Q -> Q.
Variable sfa_transform : SFA -> Series -> Bag.
Variable d : dict.
Variable X : list Series.

Lemma vote_rows_tallied (nc m : nat) (sums : list (list nat)) :
  forall preds sums',
    Forall (fun p => dict_get d p <> None) preds ->
    tallied nc m sums ->
    vote_rows d sums preds = Ok sums' ->
    tallied nc (S m) sums' /\ length sums' = length sums.
Proof.
  induction sums as [|row sums IH]; intros preds sums' Hk Ht H;
    cbn [vote_rows] in H.
  - injection H as <-. split; [constructor | reflexivity].
  - destruct preds as [|p ps]; [discriminate|].
    inversion Hk as [|? ? Hp Hps]; subst.
    inversion Ht as [|? ? [Hl Hs] Ht']; subst.
    apply bind_Ok in H. destruct H as [row' [Hrow H]].
    apply bind_Ok in H. destruct H as [rest' [Hrest H]].
    injection H as <-.
    destruct (dict_get d p) as [k|]; [|congruence].
    apply add_at_spec in Hrow. destruct Hrow as [Hl' Hs'].
    destruct (IH ps rest' Hps Ht' Hrest) as [Ht'' Hlen].
    split; [|simpl; rewrite Hlen; reflexivity].
    constructor; [|exact Ht''].
    split; [rewrite Hl'; reflexivity | rewrite Hs'; reflexivity].
Qed.

Lemma predict_proba_loop_tallied (nc : nat)
    (cls : list (BOSSIndividual Bag)) :
  forall m sums sums',
    (forall clf preds,
        In clf cls ->
        predict Bag boss_distance clf (map (sfa_transform (transform clf)) X)
        = Ok preds ->
        Forall (fun p => dict_get d p <> None) preds) ->
    tallied nc m sums ->
    predict_proba_loop Bag Series boss_distance sfa_transform d X cls sums
    = Ok sums' ->
    tallied nc (m + length cls) sums' /\ length sums' = length sums.
Proof.
  induction cls as [|clf cls IH]; intros m sums sums' Hk Ht H;
    cbn [predict_proba_loop] in H.
  - injection H as <-. rewrite Nat.add_0_r. split; [exact Ht | reflexivity].
  - apply bind_Ok in H. destruct H as [preds [Hp H]].
    apply bind_Ok in H. destruct H as [sums1 [Hv H]].
    destruct (vote_rows_tallied nc m sums preds sums1
                (Hk clf preds (or_introl eq_refl) Hp) Ht Hv) as [Ht1 Hl1].
    destruct (IH (S m) sums1 sums'
                 (fun c ps Hc => Hk c ps (or_intror Hc)) Ht1 H)
      as [Ht2 Hl2].
    split; [|rewrite Hl2, Hl1; reflexivity].
    cbn [length]. rewrite Nat.add_succ_r. exact Ht2.
Qed.

End ProbabilityRows.

Lemma tallied_zeros (nc n : nat) : tallied nc 0 (repeat (repeat O nc) n).
Proof.
  apply Forall_forall. intros row Hrow. apply repeat_spec in Hrow.
  subst row. split; [apply repeat_length|].
  induction nc as [|nc IH]; simpl; [reflexivity | exact IH].
Qed.

(** X15: when [predict_proba] returns for an object with at least one
    classifier, [num_classifiers] being their number, and every label the
    members predict is a key of the class dictionary, the result has one row
    per test series, each row has [num_classes] entries and is a
    distribution: its entries lie between 0 and 1 and sum to 1. *)
Theorem predict_proba_rows_are_distributions {Bag Series : Type}
    (boss_distance : Bag -> Bag -> Q -> Q)
    (sfa_transform : SFA -> Series -> Bag)
    (self : FittedEnsemble Bag) (X : list Series)
    (probs : list (list npfloat)) :
  num_classifiers (fitted self) = length (classifiers (fitted self)) ->
  classifiers (fitted self) <> [] ->
  votes_known boss_distance sfa_transform self X ->
  predict_proba Bag Series boss_distance sfa_transform self X = Ok probs ->
  length probs = length X /\
  Forall (distribution (num_classes (fitted self))) probs.
Proof.
  intros Hnum Hne Hknown H. unfold predict_proba in H.
  apply bind_Ok in H. destruct H as [sums [Hsums H]].
  injection H as <-.
  destruct (predict_proba_loop_tallied boss_distance sfa_transform
              (class_dictionary self) X (num_classes (fitted self))
              (classifiers (fitted self)) 0 _ sums Hknown
              (tallied_zeros _ _) Hsums) as [Ht Hlen].
  split; [rewrite length_map, Hlen; apply repeat_length|].
  rewrite Hnum. cbn [Nat.add] in Ht.
  destruct (length (classifiers (fitted self))) as [|n] eqn:En.
  - destruct (classifiers (fitted self)); [congruence | discriminate].
  - apply Forall_forall. intros prob Hprob. apply in_map_iff in Hprob.
    destruct Hprob as [row [<- Hrow]].
    destruct (proj1 (Forall_forall _ _) Ht row Hrow) as [Hl Hs].
    rewrite <- Hl. apply counts_distribution. exact Hs.
Qed.

Lemma PredictionFixture_votes_known :
  votes_known Fixture.distance PredictionFixture.transform_series
              PredictionFixture.object [3; 9; 40].
Proof.
  intros clf preds Hin Hp. simpl in Hin.
  destruct Hin as [<-|[<-|[<-|[]]]]; vm_compute in Hp; injection Hp as <-;
    repeat (constructor; [discriminate|]); constructor.
Qed.

Lemma predict_proba_rows_are_distributions_witness :
  exists probs,
    predict_proba Z Z Fixture.distance PredictionFixture.transform_series
                  PredictionFixture.object [3; 9; 40] = Ok probs /\
    length probs = length [3; 9; 40] /\
    Forall (distribution (num_classes (fitted PredictionFixture.object)))
           probs.
Proof.
  eexists. split; [vm_compute; reflexivity|].
  apply (predict_proba_rows_are_distributions Fixture.distance
           PredictionFixture.transform_series PredictionFixture.object
           [3; 9; 40]).
  - reflexivity.
  - discriminate.
  - exact PredictionFixture_votes_known.
  - vm_compute. reflexivity.
Defined.

(** ** The class [predict] returns *)

Lemma argmax_loop_first_maximum (rest : list npfloat) :
  forall pre idx v,
    Forall is_finite rest ->
    first_maximum pre idx v ->
    exists v',
      first_maximum (pre ++ rest)
                    (argmax_loop (length pre) rest (Fin v) idx) v'.
Proof.
  induction rest as [|x rest IH]; intros pre idx v Hfin Hmax.
  - exists v. rewrite app_nil_r. exact Hmax.
  - inversion Hfin as [|? ? [q ->] Hfin']; subst.
    destruct Hmax as [Hidx [Hle Hlt]].
    assert (Hi : (idx < length pre)%nat)
      by (apply nth_error_Some; congruence).
    assert (Happ : pre ++ Fin q :: rest = (pre ++ [Fin q]) ++ rest)
      by (rewrite <- app_assoc; reflexivity).
    assert (Hlen1 : length (pre ++ [Fin q]) = S (length pre))
      by (rewrite length_app; simpl; lia).
    assert (Hsplit : forall j w,
               nth_error (pre ++ [Fin q]) j = Some (Fin w) ->
               ((j < length pre)%nat /\ nth_error pre j = Some (Fin w)) \/
               (j = length pre /\ w = q)).
    { intros j w Hj.
      destruct (Nat.lt_ge_cases j (length pre)) as [Hlt'|Hge].
      - left. split; [exact Hlt'|].
        rewrite nth_error_app1 in Hj by exact Hlt'. exact Hj.
      - right. rewrite nth_error_app2 in Hj by exact Hge.
        destruct (j - length pre)%nat as [|k] eqn:Ek; simpl in Hj.
        + split; [lia | congruence].
        + destruct k; discriminate. }
    cbn [argmax_loop np_isnan np_le]. rewrite Happ, <- Hlen1.
    destruct (Qle_bool q v) eqn:E.
    + apply Qle_bool_iff in E. apply IH; [exact Hfin'|].
      split; [|split].
      * rewrite nth_error_app1 by exact Hi. exact Hidx.
      * intros j w Hj. destruct (Hsplit j w Hj) as [[_ Hp]|[_ ->]];
          [apply (Hle j w Hp) | exact E].
      * intros j w Hj' Hj. destruct (Hsplit j w Hj) as [[_ Hp]|[-> _]];
          [apply (Hlt j w Hj' Hp) | lia].
    + assert (Hgt : (v < q)%Q).
      { apply Qltb_lt. unfold Qltb. rewrite E. reflexivity. }
      apply IH; [exact Hfin'|].
      split; [|split].
      * rewrite nth_error_app2 by lia. rewrite Nat.sub_diag. reflexivity.
      * intros j w Hj. destruct (Hsplit j w Hj) as [[_ Hp]|[_ ->]].
        -- apply Qle_trans with v; [apply (Hle j w Hp)|].
           apply Qlt_le_weak. exact Hgt.
        -- apply Qle_refl.
      * intros j w Hj' Hj. destruct (Hsplit j w Hj) as [[_ Hp]|[-> _]].
        -- apply Qle_lt_trans with v; [apply (Hle j w Hp) | exact Hgt].
        -- lia.
Qed.

Lemma np_argmax_first_maximum (prob : list npfloat) (k : nat) :
  Forall is_finite prob ->
  np_argmax prob = Ok k ->
  exists v, first_maximum prob k v.
Proof.
  intros Hfin H. destruct prob as [|x rest]; [discriminate|].
  inversion Hfin as [|? ? [q ->] Hfin']; subst.
  cbn [np_argmax] in H. injection H as <-.
  apply (argmax_loop_first_maximum rest [Fin q] 0%nat q Hfin').
  split; [reflexivity|]. split.
  - intros [|j] w Hj; simpl in Hj.
    + injection Hj as <-. apply Qle_refl.
    + destruct j; discriminate.
  - intros j w Hj. lia.
Qed.

Lemma predict_classes_first_maximum (classes : list Z)
    (probs : list (list npfloat)) :
  forall labels,
    Forall (Forall is_finite) probs ->
    predict_classes classes probs = Ok labels ->
    Forall2 (fun prob l =>
               exists k v, first_maximum prob k v /\
                           nth_error classes k = Some l)
            probs labels.
Proof.
  induction probs as [|prob probs IH]; intros labels Hfin H;
    cbn [predict_classes] in H.
  - injection H as <-. constructor.
  - inversion Hfin as [|? ? Hp Hps]; subst.
    apply bind_Ok in H. destruct H as [k [Hk H]].
    apply bind_Ok in H. destruct H as [c [Hc H]].
    apply bind_Ok in H. destruct H as [cs [Hcs H]].
    injection H as <-. constructor; [|apply (IH cs Hps Hcs)].
    destruct (np_argmax_first_maximum prob k Hp Hk) as [v Hv].
    exists k, v. split; [exact Hv|].
    unfold py_get in Hc. destruct (nth_error classes k); [|discriminate].
    congruence.
Qed.

(** X16: when [BOSSEnsemble.predict] returns for an object with
    [num_classifiers] not 0, the label it gives for a test series is the
    class, by its position in [classes_], whose probability in the row of
    [predict_proba] is the highest; among classes of equal probability it is
    the one of lowest position. *)
Theorem ensemble_predict_first_maximum {Bag Series : Type}
    (boss_distance : Bag -> Bag -> Q -> Q)
    (sfa_transform : SFA -> Series -> Bag)
    (self : FittedEnsemble Bag) (X : list Series) (labels : list Z) :
  num_classifiers (fitted self) <> O ->
  ensemble_predict Bag Series boss_distance sfa_transform self X
  = Ok labels ->
  exists probs,
    predict_proba Bag Series boss_distance sfa_transform self X = Ok probs /\
    Forall2 (fun prob l =>
               exists k v, first_maximum prob k v /\
                           nth_error (classes_ self) k = Some l)
            probs labels.
Proof.
  intros Hnum H. unfold ensemble_predict in H.
  apply bind_Ok in H. destruct H as [probs [Hp H]].
  exists probs. split; [exact Hp|].
  apply predict_classes_first_maximum; [|exact H].
  unfold predict_proba in Hp.
  apply bind_Ok in Hp. destruct Hp as [sums [_ Hp]].
  injection Hp as <-.
  destruct (num_classifiers (fitted self)) as [|n]; [congruence|].
  apply Forall_forall. intros prob Hprob. apply in_map_iff in Hprob.
  destruct Hprob as [row [<- _]].
  apply Forall_forall. intros x Hx. apply in_map_iff in Hx.
  destruct Hx as [c [<- _]]. eexists. reflexivity.
Qed.

Lemma ensemble_predict_first_maximum_witness :
  exists probs,
    predict_proba Z Z Fixture.distance PredictionFixture.transform_series
                  PredictionFixture.object [3; 9; 40] = Ok probs /\
    Forall2 (fun prob l =>
               exists k v,
                 first_maximum prob k v /\
                 nth_error (classes_ PredictionFixture.object) k = Some l)
            probs [0; 1; 1].
Proof.
  apply (ensemble_predict_first_maximum Fixture.distance
           PredictionFixture.transform_series PredictionFixture.object
           [3; 9; 40] [0; 1; 1]).
  - discriminate.
  - vm_compute. reflexivity.
Defined.

(** ** An ensemble that retained nothing *)

Lemma fit_fields {Bag : Type} (boss_distance : Bag -> Bag -> Q -> Q)
    (sfa_fit_transform : SFA -> list Bag)
    (sfa_shorten_bags : SFA -> Z -> list Bag) (random_draws : nat -> draw)
    (self : BOSSEnsemble) (num_insts series_length : Z) (y : list Z)
    (f : Fitted Bag) :
  fit Bag boss_distance sfa_fit_transform sfa_shorten_bags random_draws self
      num_insts series_length y = Ok f ->
  num_classes f = length (nodup Z.eq_dec y) /\
  num_classifiers f = length (classifiers f).
Proof.
  intro H. unfold fit in H.
  apply bind_Ok in H. destruct H as [win_inc [_ H]].
  apply bind_Ok in H. destruct H as [cls [_ H]].
  injection H as <-. split; reflexivity.
Qed.

Lemma np_unique_lowest (y : list Z) :
  y <> [] ->
  exists c0 rest,
    np_unique y = c0 :: rest /\ In c0 y /\ Forall (fun l => c0 <= l) y.
Proof.
  intro Hy. pose proof (np_unique_ascending y) as Hasc.
  destruct (np_unique y) as [|c0 rest] eqn:E.
  - destruct y as [|a y]; [congruence|]. exfalso.
    assert (Hin : In a (np_unique (a :: y)))
      by (apply np_unique_In; left; reflexivity).
    rewrite E in Hin. exact Hin.
  - exists c0, rest. split; [reflexivity|]. split.
    + apply np_unique_In. rewrite E. left. reflexivity.
    + apply Forall_forall. intros l Hl. apply np_unique_In in Hl.
      rewrite E in Hl. destruct Hasc as [Hlt _].
      destruct Hl as [<-|Hl]; [lia|].
      pose proof (proj1 (Forall_forall _ _) Hlt l Hl) as H. simpl in H. lia.
Qed.

Lemma nodup_nonempty (y : list Z) :
  y <> [] -> length (nodup Z.eq_dec y) <> O.
Proof.
  intros Hy H. destruct y as [|a y]; [congruence|].
  assert (Hin : In a (nodup Z.eq_dec (a :: y)))
    by (apply nodup_In; left; reflexivity).
  destruct (nodup Z.eq_dec (a :: y)); [exact Hin | discriminate].
Qed.

Lemma predict_classes_nan (c0 : Z) (rest : list Z) (nc n : nat) :
  predict_classes (c0 :: rest) (repeat (repeat NaN (S nc)) n)
  = Ok (repeat c0 n).
Proof.
  induction n as [|n IH]; [reflexivity|].
  cbn [repeat predict_classes np_argmax]. 
  replace (argmax_loop 1 (repeat NaN nc) NaN 0) with O
    by (destruct nc; reflexivity).
  cbn [bind py_get nth_error].
  change (repeat NaN nc) with (repeat NaN nc).
  change (NaN :: repeat NaN nc) with (repeat NaN (S nc)).
  rewrite IH. reflexivity.
Qed.

(** X17: an object that [fit] leaves with no classifier, on a training set
    with at least one label, raises nothing on prediction: [predict_proba]
    gives a row of [nan] for every test series, and [predict] gives every
    series the lowest of the training labels. *)
Theorem predict_without_members_returns_lowest_class {Bag Series : Type}
    (boss_distance : Bag -> Bag -> Q -> Q)
    (sfa_transform : SFA -> Series -> Bag)
    (sfa_fit_transform : SFA -> list Bag)
    (sfa_shorten_bags : SFA -> Z -> list Bag) (random_draws : nat -> draw)
    (self : BOSSEnsemble) (num_insts series_length : Z) (y : list Z)
    (obj : FittedEnsemble Bag) :
  fit_object Bag boss_distance sfa_fit_transform sfa_shorten_bags
             random_draws self num_insts series_length y = Ok obj ->
  classifiers (fitted obj) = [] ->
  y <> [] ->
  exists c0,
    In c0 y /\ Forall (fun l => c0 <= l) y /\
    forall X : list Series,
      predict_proba Bag Series boss_distance sfa_transform obj X
      = Ok (repeat (repeat NaN (num_classes (fitted obj))) (length X)) /\
      ensemble_predict Bag Series boss_distance sfa_transform obj X
      = Ok (repeat c0 (length X)).
Proof.
  intros Hfit Hcls Hy. unfold fit_object in Hfit.
  apply bind_Ok in Hfit. destruct Hfit as [f [Hf Hobj]].
  injection Hobj as <-. cbn [fitted] in Hcls.
  destruct (fit_fields _ _ _ _ _ _ _ _ _ Hf) as [Hnc Hnum].
  rewrite Hcls in Hnum. cbn [length] in Hnum.
  destruct (np_unique_lowest y Hy) as [c0 [rest [Hu [Hin Hlow]]]].
  exists c0. split; [exact Hin|]. split; [exact Hlow|]. intro X.
  assert (Hp : predict_proba Bag Series boss_distance sfa_transform
                 (mkFittedEnsemble f (np_unique y)
                    (class_dictionary_loop 0 (np_unique y) [])) X
               = Ok (repeat (repeat NaN (num_classes f)) (length X))).
  { unfold predict_proba. cbn [fitted class_dictionary].
    rewrite Hcls, Hnum. cbn [predict_proba_loop bind]. f_equal.
    rewrite map_repeat. f_equal. rewrite map_repeat. reflexivity. }
  split; [exact Hp|].
  unfold ensemble_predict. rewrite Hp. cbn [bind classes_ fitted].
  rewrite Hu, Hnc.
  pose proof (nodup_nonempty y Hy) as Hne.
  destruct (length (nodup Z.eq_dec y)) as [|nc]; [congruence|].
  apply predict_classes_nan.
Qed.

(** ** The training-set distributions *)

Section TrainVotes.

Context {Bag : Type}.
Variable boss_distance : Bag -> Bag -> Q -> Q.
Variable self : FittedEnsemble Bag.

Lemma list_sum_zeros (n : nat) : list_sum (repeat O n) = O.
Proof. induction n as [|n IH]; simpl; [reflexivity | exact IH]. Qed.

Lemma train_votes_spec (d : dict) (cls : list (BOSSIndividual Bag))
    (i : nat) :
  forall sums sums',
    train_votes Bag boss_distance d cls i sums = Ok sums' ->
    length sums' = length sums /\
    list_sum sums' = (length cls + list_sum sums)%nat.
Proof.
  induction cls as [|clf cls IH]; intros sums sums' H;
    cbn [train_votes] in H.
  - injection H as <-. split; reflexivity.
  - apply bind_Ok in H. destruct H as [c [_ H]].
    apply bind_Ok in H. destruct H as [sums1 [H1 H]].
    apply add_at_index_spec in H1. destruct H1 as [Hl Hs].
    destruct (IH _ _ H) as [Hl' Hs']. split; [congruence|].
    rewrite Hs', Hs. simpl. lia.
Qed.

Lemma train_dists_distribution (i : nat) (dists : list npfloat) :
  num_classifiers (fitted self) = length (classifiers (fitted self)) ->
  classifiers (fitted self) <> [] ->
  train_dists Bag boss_distance self i = Ok dists ->
  distribution (num_classes (fitted self)) dists.
Proof.
  intros Hnum Hne H. unfold train_dists in H.
  apply bind_Ok in H. destruct H as [sums [Hs H]]. injection H as <-.
  apply train_votes_spec in Hs. destruct Hs as [Hl Hs].
  rewrite repeat_length in Hl. rewrite list_sum_zeros, Nat.add_0_r in Hs.
  rewrite Hnum. rewrite <- Hl.
  destruct (classifiers (fitted self)) as [|clf cls]; [congruence|].
  apply counts_distribution. exact Hs.
Qed.

Lemma get_train_probs_loop_spec (insts : list nat) :
  forall probs,
    num_classifiers (fitted self) = length (classifiers (fitted self)) ->
    classifiers (fitted self) <> [] ->
    get_train_probs_loop Bag boss_distance self insts = Ok probs ->
    length probs = length insts /\
    Forall (distribution (num_classes (fitted self))) probs.
Proof.
  induction insts as [|i insts IH]; intros probs Hnum Hne H;
    cbn [get_train_probs_loop] in H.
  - injection H as <-. split; [reflexivity | constructor].
  - apply bind_Ok in H. destruct H as [dists [Hd H]].
    apply bind_Ok in H. destruct H as [results [Hr H]].
    injection H as <-. destruct (IH _ Hnum Hne Hr) as [Hl Hf].
    split; [simpl; congruence|]. constructor; [|exact Hf].
    apply (train_dists_distribution i dists Hnum Hne Hd).
Qed.

Lemma find_ensemble_train_acc_loop_spec (y : list Z) (insts : list nat) :
  forall correct total columns,
    find_ensemble_train_acc_loop Bag boss_distance self y insts correct
    = Ok (total, columns) ->
    get_train_probs_loop Bag boss_distance self insts
    = Ok (map column_dists columns) /\
    Forall2 (column_of (class_dictionary self) y) insts columns /\
    total = correct + correct_columns columns.
Proof.
  induction insts as [|i insts IH]; intros correct total columns H;
    cbn [find_ensemble_train_acc_loop] in H.
  - injection H as <- <-. split; [reflexivity|].
    split; [constructor | simpl; lia].
  - apply bind_Ok in H. destruct H as [dists [Hd H]].
    apply bind_Ok in H. destruct H as [c [Hc H]].
    apply bind_Ok in H. destruct H as [yi [Hyi H]].
    cbv zeta in H.
    apply bind_Ok in H. destruct H as [[total' columns'] [Hrec H]].
    injection H as <- <-.
    destruct (IH _ _ _ Hrec) as [Hg [Hcols Htot]].
    cbn [get_train_probs_loop map column_dists]. rewrite Hd, Hg.
    split; [reflexivity|]. split.
    + constructor; [|exact Hcols]. split; cbn [true_class column_dists
        predicted_class]; [|exact Hc].
      exists yi. split; [|reflexivity].
      unfold py_get in Hyi. destruct (nth_error y i); [|discriminate].
      congruence.
    + cbn [correct_columns predicted_class true_class]. rewrite Htot.
      destruct (Z.of_nat c =? _); lia.
Qed.

Lemma correct_columns_range (columns : list train_column) :
  0 <= correct_columns columns <= Z.of_nat (length columns).
Proof.
  induction columns as [|col columns IH]; simpl length;
    cbn [correct_columns]; [simpl; lia|].
  destruct (Z.of_nat (predicted_class col) =? true_class col); lia.
Qed.

End TrainVotes.

(** X18: when [get_train_probs] returns for an object with at least one
    classifier, [num_classifiers] being their number, the result has one row
    per training instance and every row is a distribution over the classes:
    a label [train_predict] gives that is no key of the class dictionary,
    [-1] included, is counted for the last class, so no vote is lost. *)
Theorem get_train_probs_rows_are_distributions {Bag Series : Type}
    (boss_distance : Bag -> Bag -> Q -> Q)
    (self : FittedEnsemble Bag) (X : list Series)
    (probs : list (list npfloat)) :
  num_classifiers (fitted self) = length (classifiers (fitted self)) ->
  classifiers (fitted self) <> [] ->
  get_train_probs Bag Series boss_distance self X = Ok probs ->
  length probs = length X /\
  Forall (distribution (num_classes (fitted self))) probs.
Proof.
  intros Hnum Hne H. unfold get_train_probs in H.
  destruct (get_train_probs_loop_spec boss_distance self _ _ Hnum Hne H)
    as [Hl Hf].
  rewrite length_seq in Hl. split; [exact Hl | exact Hf].
Qed.

Lemma get_train_probs_rows_are_distributions_witness :
  exists probs,
    get_train_probs Z Z Fixture.distance PredictionFixture.object
                    [3; 9; 40; 1] = Ok probs /\
    length probs = length [3; 9; 40; 1] /\
    Forall (distribution (num_classes (fitted PredictionFixture.object)))
           probs.
Proof.
  eexists. split; [vm_compute; reflexivity|].
  apply (get_train_probs_rows_are_distributions Fixture.distance
           PredictionFixture.object [3; 9; 40; 1]).
  - reflexivity.
  - discriminate.
  - vm_compute. reflexivity.
Defined.

(** X19: when [find_ensemble_train_acc] returns, the training set has at
    least one instance; the distributions it stores, column by column, are
    the rows of [get_train_probs]; a column holds the position of its
    instance's label in the class dictionary ([-1] for a label that is no
    key) and the first position of the highest probability; and the accuracy
    in [results[0][0]] is the share of columns in which the two agree, a
    number between 0 and 1. *)
Theorem find_ensemble_train_acc_columns {Bag Series : Type}
    (boss_distance : Bag -> Bag -> Q -> Q)
    (self : FittedEnsemble Bag) (X : list Series) (y : list Z)
    (acc : Q) (columns : list train_column) :
  find_ensemble_train_acc Bag Series boss_distance self X y
  = Ok (acc, columns) ->
  X <> [] /\
  get_train_probs Bag Series boss_distance self X
  = Ok (map column_dists columns) /\
  Forall2 (column_of (class_dictionary self) y) (seq 0 (length X)) columns /\
  (acc == inject_Z (correct_columns columns)
          / inject_Z (Z.of_nat (length X)))%Q /\
  (0 <= acc <= 1)%Q.
Proof.
  intro H. unfold find_ensemble_train_acc in H.
  apply bind_Ok in H. destruct H as [[correct cols] [Hloop H]].
  apply bind_Ok in H. destruct H as [a [Ha H]].
  injection H as <- <-.
  destruct (find_ensemble_train_acc_loop_spec boss_distance self _ _ _ _ _
              Hloop) as [Hg [Hcols Htot]].
  rewrite Z.add_0_l in Htot. subst correct.
  unfold py_truediv in Ha.
  destruct (Qeq_bool (inject_Z (Z.of_nat (length X))) 0) eqn:E;
    [discriminate|].
  injection Ha as <-.
  assert (Hlen : length cols = length X).
  { apply Forall2_length in Hcols. rewrite length_seq in Hcols.
    congruence. }
  assert (HX : X <> []).
  { intros ->. discriminate. }
  assert (Hpos : (0 < inject_Z (Z.of_nat (length X)))%Q).
  { change 0%Q with (inject_Z 0). rewrite <- Zlt_Qlt.
    destruct X; [congruence | simpl; lia]. }
  pose proof (correct_columns_range cols) as Hr. rewrite Hlen in Hr.
  split; [exact HX|]. split; [exact Hg|]. split; [exact Hcols|].
  split; [reflexivity|]. split.
  - apply Qle_shift_div_l; [exact Hpos|]. rewrite Qmult_0_l.
    change 0%Q with (inject_Z 0). rewrite <- Zle_Qle. lia.
  - apply Qle_shift_div_r; [exact Hpos|]. rewrite Qmult_1_l.
    rewrite <- Zle_Qle. lia.
Qed.

Lemma find_ensemble_train_acc_columns_witness :
  exists acc columns,
    find_ensemble_train_acc Z Z Fixture.distance PredictionFixture.object
                            [3; 9; 40; 1] Fixture.y = Ok (acc, columns) /\
    [3; 9; 40; 1] <> [] /\
    get_train_probs Z Z Fixture.distance PredictionFixture.object
                    [3; 9; 40; 1] = Ok (map column_dists columns) /\
    Forall2 (column_of (class_dictionary PredictionFixture.object) Fixture.y)
            (seq 0 (length [3; 9; 40; 1])) columns /\
    (acc == inject_Z (correct_columns columns)
            / inject_Z (Z.of_nat (length [3; 9; 40; 1])))%Q /\
    (0 <= acc <= 1)%Q.
Proof.
  eexists. eexists. split; [vm_compute; reflexivity|].
  apply (find_ensemble_train_acc_columns Fixture.distance
           PredictionFixture.object [3; 9; 40; 1] Fixture.y).
  vm_compute. reflexivity.
Defined.

Lemma predict_without_members_returns_lowest_class_witness :
  exists obj,
    fit_object Z Fixture.distance
               (Fixture.fit_transform Fixture.table_all_three
                                      Fixture.bags_none)
               (Fixture.shorten Fixture.table_all_three Fixture.bags_none)
               Fixture.draws (Fixture.with_cap 0 (92 # 100)) 4 40 Fixture.y
    = Ok obj /\
    exists c0,
      In c0 Fixture.y /\ Forall (fun l => c0 <= l) Fixture.y /\
      forall X : list Z,
        predict_proba Z Z Fixture.distance
                      PredictionFixture.transform_series obj X
        = Ok (repeat (repeat NaN (num_classes (fitted obj))) (length X)) /\
        ensemble_predict Z Z Fixture.distance
                         PredictionFixture.transform_series obj X
        = Ok (repeat c0 (length X)).
Proof.
  eexists. split; [vm_compute; reflexivity|].
  apply (predict_without_members_returns_lowest_class Fixture.distance
           PredictionFixture.transform_series
           (Fixture.fit_transform Fixture.table_all_three Fixture.bags_none)
           (Fixture.shorten Fixture.table_all_three Fixture.bags_none)
           Fixture.draws (Fixture.with_cap 0 (92 # 100)) 4 40 Fixture.y).
  - vm_compute. reflexivity.
  - reflexivity.
  - discriminate.
Defined.

(** ** The transform of a retained member *)

Section OwnTransform.

Context {Bag : Type}.
Variable boss_distance : Bag -> Bag -> Q -> Q.
Variable sfa_fit_transform : SFA -> list Bag.
Variable sfa_shorten_bags : SFA -> Z -> list Bag.
Variable self : BOSSEnsemble.
Variable y : list Z.
Variable num_insts : Z.



End OwnTransform.


